(** * API Management tag resource: identifier codec and CRUD reconciliation

    Shallow embedding of

    - [azurerm/internal/services/apimanagement/parse/tag.go]
      (the [TagId] struct, [NewTagID], [TagId.ID] and the parser [TagID]);
    - [azurerm/internal/services/apimanagement/api_management_tag_resource.go]
      (the create-or-update, read and delete functions of the resource).

    Go strings are [string]; a Go [map[string]string] is a [gmap string string];
    a function returning [(T, error)] returns a [result T]; the resource
    functions, which mutate the resource data and talk to the remote client,
    live in a small state-and-error monad that also logs every remote call. *)

From Stdlib Require Import Ascii String Bool Arith Lia.
From stdpp Require Import gmap strings list fin_maps.

Local Open Scope stdpp_scope.

(** ** Results of fallible Go functions *)

(** A Go pair [(value, error)] in which exactly one side is meaningful. *)
Inductive result (A : Type) : Type :=
| Ok (a : A)
| Err (msg : string).
Arguments Ok {A} a.
Arguments Err {A} msg.

Definition is_err {A : Type} (r : result A) : Prop :=
  match r with Ok _ => False | Err _ => True end.

(** ** Strings: path splitting and case folding *)

Module strings.

Definition slash : ascii := "/"%char.

(** [strings.Split(s, "/")]: the pieces between the separators; the empty
    string yields one empty piece. *)
Fixpoint Split (s : string) : list string :=
  match s with
  | EmptyString => [EmptyString]
  | String c s' =>
      if Ascii.eqb c slash then EmptyString :: Split s'
      else match Split s' with
           | [] => [String c EmptyString]
           | piece :: pieces => String c piece :: pieces
           end
  end.

(** [strings.TrimPrefix(s, "/")]. *)
Definition TrimPrefix (s : string) : string :=
  match s with
  | String c s' => if Ascii.eqb c slash then s' else s
  | EmptyString => s
  end.

Definition lower_ascii (c : ascii) : ascii :=
  let n := nat_of_ascii c in
  if (65 <=? n) && (n <=? 90) then ascii_of_nat (n + 32) else c.

(** [strings.ToLower] on the ASCII letters. *)
Fixpoint ToLower (s : string) : string :=
  match s with
  | EmptyString => EmptyString
  | String c s' => String (lower_ascii c) (ToLower s')
  end.

(** [strings.Join(elems, "/")]. *)
Fixpoint Join (elems : list string) : string :=
  match elems with
  | [] => EmptyString
  | [a] => a
  | a :: rest => a +:+ String slash (Join rest)
  end.

(** No path separator occurs in [s]. *)
Fixpoint slash_free (s : string) : bool :=
  match s with
  | EmptyString => true
  | String c s' => negb (Ascii.eqb c slash) && slash_free s'
  end.

End strings.

(** ** The generic resource-ID helper ([helpers/azure]) *)

Module azure.

(** Modelled from the spec: the struct returned by
    [azure.ParseAzureResourceID], whose declaration is not part of the
    sources at hand.  The callers read its fields [SubscriptionID],
    [ResourceGroup] and the map [Path]. *)
Record ResourceID : Type := mkResourceID {
  SubscriptionID : string;
  ResourceGroup : string;
  Provider : string;
  Path : gmap string string
}.

(** Scanning the path pairwise: [type; value; type; value; ...]. *)
Fixpoint pair_up (l : list string) : option (list (string * string)) :=
  match l with
  | [] => Some []
  | [_] => None
  | k :: v :: rest =>
      match pair_up rest with
      | Some kvs => Some ((k, v) :: kvs)
      | None => None
      end
  end.

Definition segment_pairs (input : string) : option (list (string * string)) :=
  pair_up (strings.Split (strings.TrimPrefix input)).

(** The mapping from segment key to segment value; keys are folded to lower
    case so that matching ignores their case, values are kept as they are. *)
Definition componentMap (kvs : list (string * string)) : gmap string string :=
  foldl (λ m kv, <[strings.ToLower kv.1 := kv.2]> m) ∅ kvs.

(** Modelled from the spec: [azure.ParseAzureResourceID], missing from the
    sources.  "Split the input into alternating type/value path segments
    (case-insensitive segment keys)"; "build a mapping from segment key to
    segment value while scanning the path pairwise"; the well-known keys
    [subscriptions], [resourceGroups] and [providers] are taken out of the
    mapping into fields of their own (empty when absent) and every other
    segment stays in [Path].  ([parse.TagID] reads the first two fields and
    never pops [providers], which every rendered ID contains.)  An input
    whose segments cannot be paired is an error. *)
Definition ParseAzureResourceID (input : string) : result ResourceID :=
  match segment_pairs input with
  | None => Err "ID does not consist of alternating type/value segments"
  | Some kvs =>
      let m := componentMap kvs in
      Ok {| SubscriptionID := default "" (m !! "subscriptions");
            ResourceGroup := default "" (m !! "resourcegroups");
            Provider := default "" (m !! "providers");
            Path := delete "providers"
                      (delete "resourcegroups" (delete "subscriptions" m)) |}
  end.

(** Modelled from the spec: the method [ResourceID.PopSegment], missing from
    the sources.  "Pop (extract-and-remove) the segment whose type key names
    this resource kind"; fails "if that segment key is absent".  The Go
    method mutates the receiver; here the updated receiver is returned. *)
Definition PopSegment (id : ResourceID) (name : string)
  : result (string * ResourceID) :=
  match Path id !! strings.ToLower name with
  | Some val =>
      Ok (val, {| SubscriptionID := SubscriptionID id;
                  ResourceGroup := ResourceGroup id;
                  Provider := Provider id;
                  Path := delete (strings.ToLower name) (Path id) |})
  | None => Err ("ID was missing the '" +:+ name +:+ "' element")
  end.

(** The first key of [keys] still bound in [p]. *)
Fixpoint first_remaining (p : gmap string string) (keys : list string)
  : option string :=
  match keys with
  | [] => None
  | k :: ks =>
      match p !! k with
      | Some _ => Some k
      | None => first_remaining p ks
      end
  end.

Definition source_keys (sourceId : string) : list string :=
  match segment_pairs sourceId with
  | Some kvs => (λ kv, strings.ToLower kv.1) <$> kvs
  | None => []
  end.

(** Modelled from the spec: the method [ResourceID.ValidateNoEmptySegments],
    missing from the sources.  "Require that zero segments remain unconsumed";
    otherwise fail "naming the first unexpected segment key" (the first key
    of the source ID that is still in [Path]).  [None] is Go's [nil]. *)
Definition ValidateNoEmptySegments (id : ResourceID) (sourceId : string)
  : option string :=
  if decide (Path id = ∅) then None
  else Some ("ID contained an unexpected segment: "
             +:+ default "" (first_remaining (Path id) (source_keys sourceId))).

End azure.

(** ** [parse/tag.go] *)

Module parse.

Record TagId : Type := mkTagId {
  SubscriptionId : string;
  ResourceGroup : string;
  Name : string
}.

Definition NewTagID (subscriptionId resourceGroup name : string) : TagId :=
  {| SubscriptionId := subscriptionId;
     ResourceGroup := resourceGroup;
     Name := name |}.

(** [fmt.Sprintf(fmtString, id.SubscriptionId, id.ResourceGroup, id.Name)]
    with the three [%s] verbs written out. *)
Definition ID (id : TagId) : string :=
  "/subscriptions/" +:+ SubscriptionId id
  +:+ "/resourceGroups/" +:+ ResourceGroup id
  +:+ "/providers/Microsoft.AnalysisServices/tags/" +:+ Name id.

(** [TagID] parses a Tag ID into a [TagId] struct. *)
Definition TagID (input : string) : result TagId :=
  match azure.ParseAzureResourceID input with
  | Err err => Err err
  | Ok id =>
      let subscriptionId := azure.SubscriptionID id in
      let resourceGroup := azure.ResourceGroup id in
      if decide (subscriptionId = "") then
        Err "ID was missing the 'subscriptions' element"
      else if decide (resourceGroup = "") then
        Err "ID was missing the 'resourceGroups' element"
      else
        match azure.PopSegment id "tags" with
        | Err err => Err err
        | Ok (name, id) =>
            match azure.ValidateNoEmptySegments id input with
            | Some err => Err err
            | None => Ok {| SubscriptionId := subscriptionId;
                            ResourceGroup := resourceGroup;
                            Name := name |}
            end
        end
  end.

End parse.

(** ** An ID read off its list of segment pairs

    The parser goes through a map; the properties below are stated on the
    list of [(type, value)] pairs of the input.  This module gives the
    list-level vocabulary. *)

Module segments.

(** The segment keys of the pairs, folded to lower case, in path order. *)
Definition keys (kvs : list (string * string)) : list string :=
  (λ kv, strings.ToLower kv.1) <$> kvs.

(** The value of the last segment whose key is [key] up to case. *)
Fixpoint segment_value (key : string) (kvs : list (string * string))
  : option string :=
  match kvs with
  | [] => None
  | kv :: rest =>
      match segment_value key rest with
      | Some v => Some v
      | None => if decide (strings.ToLower kv.1 = key) then Some kv.2 else None
      end
  end.

(** The keys consumed by [azure.ParseAzureResourceID] and [parse.TagID]. *)
Definition recognized (key : string) : bool :=
  String.eqb key "subscriptions" || String.eqb key "resourcegroups"
  || String.eqb key "providers" || String.eqb key "tags".

(** What is left of the component map once the recognized keys are out. *)
Definition remaining (m : gmap string string) : gmap string string :=
  delete "tags" (delete "providers"
    (delete "resourcegroups" (delete "subscriptions" m))).

Definition unexpected_keys (kvs : list (string * string)) : list string :=
  filter (λ k, recognized k = false) (keys kvs).

(** What [parse.TagID] returns on an input with these segment pairs. *)
Definition TagID_by_segments (kvs : list (string * string))
  : result parse.TagId :=
  let subscriptionId := default "" (segment_value "subscriptions" kvs) in
  let resourceGroup := default "" (segment_value "resourcegroups" kvs) in
  if decide (subscriptionId = "") then
    Err "ID was missing the 'subscriptions' element"
  else if decide (resourceGroup = "") then
    Err "ID was missing the 'resourceGroups' element"
  else
    match segment_value "tags" kvs with
    | None => Err "ID was missing the 'tags' element"
    | Some name =>
        match unexpected_keys kvs with
        | [] => Ok (parse.NewTagID subscriptionId resourceGroup name)
        | k :: _ => Err ("ID contained an unexpected segment: " +:+ k)
        end
    end.

(** The value the input gives for [key]: that of its last segment with
    this key, if the input splits into pairs and has one. *)
Definition input_value (key input : string) : option string :=
  match azure.segment_pairs input with
  | Some kvs => segment_value key kvs
  | None => None
  end.

(** No segment of the input has the key [key] (up to case). *)
Definition lacks (key input : string) : bool :=
  bool_decide (key ∉ azure.source_keys input).

(** The input has a segment [key] and gives it the empty value. *)
Definition empty_value (key input : string) : bool :=
  match input_value key input with
  | Some v => String.eqb v ""
  | None => false
  end.

Definition missing (key input : string) : bool :=
  lacks key input || empty_value key input.

(** A field value that can be a path segment: not empty, no separator. *)
Definition valid_field (s : string) : bool :=
  negb (String.eqb s "") && strings.slash_free s.

Definition valid_id (id : parse.TagId) : bool :=
  valid_field (parse.SubscriptionId id)
  && valid_field (parse.ResourceGroup id)
  && valid_field (parse.Name id).

(** Pairs that agree up to the case of their keys. *)
Definition same_pairs (kvs1 kvs2 : list (string * string)) : Prop :=
  Forall2 (λ a b, strings.ToLower a.1 = strings.ToLower b.1 ∧ a.2 = b.2)
          kvs1 kvs2.

(** Two segment lists that differ only in the case of their keys (the
    segments at even positions). *)
Fixpoint recased (l1 l2 : list string) : bool :=
  match l1, l2 with
  | [], [] => true
  | [k1], [k2] => String.eqb (strings.ToLower k1) (strings.ToLower k2)
  | k1 :: v1 :: r1, k2 :: v2 :: r2 =>
      String.eqb (strings.ToLower k1) (strings.ToLower k2)
      && String.eqb v1 v2 && recased r1 r2
  | _, _ => false
  end.

End segments.

(** ** The remote API: SDK types and the helpers of [utils] *)

Module autorest.

(** The HTTP response attached to every SDK result; only its status code is
    looked at. *)
Record Response : Type := mkResponse { StatusCode : nat }.

End autorest.

Module apimanagement.

Record TagContractProperties : Type := mkTagContractProperties {
  DisplayName : option string
}.

(** The SDK's [TagContract]: pointers are options. *)
Record TagContract : Type := mkTagContract {
  Response : autorest.Response;
  ID : option string;
  Properties : option TagContractProperties
}.

Record TagCreateUpdateParameters : Type := mkTagCreateUpdateParameters {
  TagContractProperties_ : option TagContractProperties
}.

End apimanagement.

Module utils.

(** Modelled from the spec: [utils.ResponseWasNotFound], missing from the
    sources; the "not found" signal of the remote transport, that is, the
    response carries HTTP status 404. *)
Definition ResponseWasNotFound (resp : autorest.Response) : bool :=
  autorest.StatusCode resp =? 404.

(** [utils.String]: a pointer to the given string. *)
Definition String_ (input : string) : option string := Some input.

End utils.

(** ** The resource data handed in by the plugin SDK *)

Module pluginsdk.

(** [*pluginsdk.ResourceData]: the persisted handle, whether the resource is
    being created, and the attribute values by schema key. *)
Record ResourceData : Type := mkResourceData {
  Id : string;
  IsNewResource : bool;
  attributes : gmap string string
}.

(** [d.Get(key).(string)]; an unset string attribute reads as [""]. *)
Definition Get (d : ResourceData) (key : string) : string :=
  default "" (attributes d !! key).

Definition Set_ (d : ResourceData) (key value : string) : ResourceData :=
  {| Id := Id d; IsNewResource := IsNewResource d;
     attributes := <[key := value]> (attributes d) |}.

Definition SetId (d : ResourceData) (v : string) : ResourceData :=
  {| Id := v; IsNewResource := IsNewResource d; attributes := attributes d |}.

End pluginsdk.

(** ** Errors of the resource functions *)

(** One constructor per [return] site; the arguments are those of the format
    string.  [ParseError] is the error of [parse.TagID], returned unchanged. *)
Inductive error : Type :=
| ParseError (msg : string)
| CheckingPresence (serviceName resourceGroup err : string)
| ImportAsExistsError (resourceName id : string)
| CreatingOrUpdating (tagID resourceGroup serviceName err : string)
| Retrieving (tagID resourceGroup serviceName err : string)
| CannotReadID (tagID resourceGroup serviceName : string)
| MakingReadRequest (tagID serviceName resourceGroup err : string)
| Deleting (tagID serviceName resourceGroup err : string)
| Foreign (msg : string).

(** The four error conditions the resource distinguishes. *)
Inductive ErrorKind : Type :=
| MalformedIdentifier
| AlreadyExists
| RemoteCallFailed
| EmptyIdentity
| Unclassified.

Definition kind_of (e : error) : ErrorKind :=
  match e with
  | ParseError _ => MalformedIdentifier
  | ImportAsExistsError _ _ => AlreadyExists
  | CheckingPresence _ _ _ | CreatingOrUpdating _ _ _ _ | Retrieving _ _ _ _
  | MakingReadRequest _ _ _ _ | Deleting _ _ _ _ => RemoteCallFailed
  | CannotReadID _ _ _ => EmptyIdentity
  | Foreign _ => Unclassified
  end.

(** The requests sent to the remote tag client, in the order they are made. *)
Inductive Call : Type :=
| CallGet (resourceGroup serviceName tagID : string)
| CallCreateOrUpdate (resourceGroup serviceName tagID : string)
    (parameters : apimanagement.TagCreateUpdateParameters) (ifMatch : string)
| CallDelete (resourceGroup serviceName tagID ifMatch : string).

Definition is_create (c : Call) : bool :=
  match c with CallCreateOrUpdate _ _ _ _ _ => true | _ => false end.

(** ** The resource functions *)

Section Resource.

(** The remote side: its state and the three operations of the tag client. *)
Context {World : Type}.

Record TagClient : Type := mkTagClient {
  Get : string → string → string → World
        → (apimanagement.TagContract * option string) * World;
  CreateOrUpdate : string → string → string
        → apimanagement.TagCreateUpdateParameters → string → World
        → (apimanagement.TagContract * option string) * World;
  Delete : string → string → string → string → World
        → (autorest.Response * option string) * World
}.

(** What a resource function runs on: the resource data [d], the remote
    side, and the log of the calls made so far (latest last). *)
Record State : Type := mkState {
  d : pluginsdk.ResourceData;
  remote : World;
  calls : list Call
}.

(** State and error: [inl e] is Go's [return e] with [e != nil]. *)
Definition M (A : Type) : Type := State → (error + A) * State.

#[global] Instance M_ret : MRet M := λ A a st, (inr a, st).
#[global] Instance M_bind : MBind M := λ A B f m st,
  match m st with
  | (inl e, st') => (inl e, st')
  | (inr a, st') => f a st'
  end.

Definition fail {A : Type} (e : error) : M A := λ st, (inl e, st).

Definition get_d : M pluginsdk.ResourceData := λ st, (inr (d st), st).

Definition modify_d (f : pluginsdk.ResourceData → pluginsdk.ResourceData)
  : M unit :=
  λ st, (inr (), {| d := f (d st); remote := remote st; calls := calls st |}).

(** A remote call: log it, then let the remote side answer. *)
Definition remote_call {A : Type} (c : Call) (op : World → A * World) : M A :=
  λ st, let '(a, w) := op (remote st) in
        (inr a, {| d := d st; remote := w; calls := calls st ++ [c] |}).

Variable client : TagClient.

(** [id.ServiceName] as read by the read and delete functions.  The struct
    [parse.TagId] declares no such field, so the accessor is a parameter. *)
Variable ServiceName : parse.TagId → string.

(** [resourceApiManagementAPIPolicyRead], the function the create-or-update
    function ends with; it is declared in another file.  It runs on the
    resource data and the remote side and reports the calls it made. *)
Variable resourceApiManagementAPIPolicyRead :
  pluginsdk.ResourceData → World
  → option error * pluginsdk.ResourceData * World * list Call.

Definition run_resourceApiManagementAPIPolicyRead : M unit :=
  λ st, let '(err, d', w, cs) :=
          resourceApiManagementAPIPolicyRead (d st) (remote st) in
        let st' := {| d := d'; remote := w; calls := calls st ++ cs |} in
        match err with
        | Some e => (inl e, st')
        | None => (inr (), st')
        end.

Definition client_Get (resourceGroup serviceName tagID : string)
  : M (apimanagement.TagContract * option string) :=
  remote_call (CallGet resourceGroup serviceName tagID)
              (Get client resourceGroup serviceName tagID).

Definition client_CreateOrUpdate (resourceGroup serviceName tagID : string)
    (parameters : apimanagement.TagCreateUpdateParameters) (ifMatch : string)
  : M (apimanagement.TagContract * option string) :=
  remote_call (CallCreateOrUpdate resourceGroup serviceName tagID parameters ifMatch)
              (CreateOrUpdate client resourceGroup serviceName tagID parameters ifMatch).

Definition client_Delete (resourceGroup serviceName tagID ifMatch : string)
  : M (autorest.Response * option string) :=
  remote_call (CallDelete resourceGroup serviceName tagID ifMatch)
              (Delete client resourceGroup serviceName tagID ifMatch).

Definition resourceApiManagementTagCreateUpdate : M unit :=
  d0 ← get_d;
  let tagID := pluginsdk.Get d0 "tag_id" in
  let resourceGroup := pluginsdk.Get d0 "resource_group_name" in
  let serviceName := pluginsdk.Get d0 "api_management_name" in
  let displayName := pluginsdk.Get d0 "display_name" in
  (if pluginsdk.IsNewResource d0 then
     '(existing, err) ← client_Get resourceGroup serviceName tagID;
     (match err with
      | Some err =>
          if negb (utils.ResponseWasNotFound (apimanagement.Response existing))
          then fail (CheckingPresence serviceName resourceGroup err)
          else mret ()
      | None => mret ()
      end);;
     match apimanagement.ID existing with
     | Some id =>
         if negb (String.eqb id "")
         then fail (ImportAsExistsError "azurerm_api_management_tag" id)
         else mret ()
     | None => mret ()
     end
   else mret ());;
  let parameters :=
    {| apimanagement.TagContractProperties_ :=
         Some {| apimanagement.DisplayName := utils.String_ displayName |} |} in
  '(_, err) ← client_CreateOrUpdate resourceGroup serviceName tagID parameters "";
  match err with
  | Some err => fail (CreatingOrUpdating tagID resourceGroup serviceName err)
  | None =>
      '(resp, err) ← client_Get resourceGroup serviceName tagID;
      match err with
      | Some err => fail (Retrieving tagID resourceGroup serviceName err)
      | None =>
          match apimanagement.ID resp with
          | None => fail (CannotReadID tagID resourceGroup serviceName)
          | Some id =>
              modify_d (λ d, pluginsdk.SetId d id);;
              run_resourceApiManagementAPIPolicyRead
          end
      end
  end.

Definition resourceApiManagementTagRead : M unit :=
  d0 ← get_d;
  match parse.TagID (pluginsdk.Id d0) with
  | Err err => fail (ParseError err)
  | Ok id =>
      let resourceGroup := parse.ResourceGroup id in
      let serviceName := ServiceName id in
      let tagID := parse.Name id in
      '(resp, err) ← client_Get resourceGroup serviceName tagID;
      match err with
      | Some err =>
          if utils.ResponseWasNotFound (apimanagement.Response resp)
          then modify_d (λ d, pluginsdk.SetId d "")
          else fail (MakingReadRequest tagID serviceName resourceGroup err)
      | None =>
          modify_d (λ d, pluginsdk.Set_ d "tag_id" tagID);;
          modify_d (λ d, pluginsdk.Set_ d "api_management_name" serviceName);;
          modify_d (λ d, pluginsdk.Set_ d "resource_group_name" resourceGroup);;
          match apimanagement.Properties resp with
          | Some props =>
              modify_d (λ d, pluginsdk.Set_ d "display_name"
                               (default "" (apimanagement.DisplayName props)))
          | None => mret ()
          end
      end
  end.

Definition resourceApiManagementTagDelete : M unit :=
  d0 ← get_d;
  match parse.TagID (pluginsdk.Id d0) with
  | Err err => fail (ParseError err)
  | Ok id =>
      let resourceGroup := parse.ResourceGroup id in
      let serviceName := ServiceName id in
      let tagID := parse.Name id in
      '(resp, err) ← client_Delete resourceGroup serviceName tagID "";
      match err with
      | Some err =>
          if negb (utils.ResponseWasNotFound resp)
          then fail (Deleting tagID serviceName resourceGroup err)
          else mret ()
      | None => mret ()
      end
  end.

End Resource.

(** ** Vocabulary for the properties of the resource functions *)

(** The response names a remote resource: its identity is set and not empty
    (the test [existing.ID != nil && *existing.ID != ""]). *)
Definition has_identity (resp : apimanagement.TagContract) : bool :=
  match apimanagement.ID resp with
  | Some id => negb (String.eqb id "")
  | None => false
  end.

(** The parameters of the create-or-update call for a display name. *)
Definition parameters_of (displayName : string)
  : apimanagement.TagCreateUpdateParameters :=
  {| apimanagement.TagContractProperties_ :=
       Some {| apimanagement.DisplayName := Some displayName |} |}.

(** A small remote side for running the functions: the world is the display
    name of the one tag, if it exists; every request addresses that tag. *)
Module mock.

Definition tag_url : string :=
  "/subscriptions/sub1/resourceGroups/rg1/providers/Microsoft.AnalysisServices/tags/tag1".

Definition not_found : autorest.Response := {| autorest.StatusCode := 404 |}.
Definition ok : autorest.Response := {| autorest.StatusCode := 200 |}.

Definition contract (displayName : string) : apimanagement.TagContract :=
  {| apimanagement.Response := ok;
     apimanagement.ID := Some tag_url;
     apimanagement.Properties :=
       Some {| apimanagement.DisplayName := Some displayName |} |}.

Definition missing : apimanagement.TagContract :=
  {| apimanagement.Response := not_found;
     apimanagement.ID := None;
     apimanagement.Properties := None |}.

Definition client : @TagClient (option string) :=
  {| Get := λ _ _ _ w,
       match w with
       | Some name => ((contract name, None), w)
       | None => ((missing, Some "ResourceNotFound"), w)
       end;
     CreateOrUpdate := λ _ _ _ parameters _ w,
       let name :=
         default "" (props ← apimanagement.TagContractProperties_ parameters;
                     apimanagement.DisplayName props) in
       ((contract name, None), Some name);
     Delete := λ _ _ _ _ w,
       match w with
       | Some _ => ((ok, None), None)
       | None => ((not_found, Some "ResourceNotFound"), None)
       end |}.

Definition ServiceName (id : parse.TagId) : string := "svc1".

(** A trailing read that does nothing. *)
Definition policyRead (d : pluginsdk.ResourceData) (w : option string)
  : option error * pluginsdk.ResourceData * option string * list Call :=
  (None, d, w, []).

Definition desired : gmap string string :=
  {[ "tag_id" := "tag1"; "resource_group_name" := "rg1";
     "api_management_name" := "svc1"; "display_name" := "Test Tag" ]}.

Definition new_resource (w : option string) : @State (option string) :=
  {| d := {| pluginsdk.Id := ""; pluginsdk.IsNewResource := true;
             pluginsdk.attributes := desired |};
     remote := w; calls := [] |}.

Definition existing_resource (handle : string) (w : option string)
  : @State (option string) :=
  {| d := {| pluginsdk.Id := handle; pluginsdk.IsNewResource := false;
             pluginsdk.attributes := desired |};
     remote := w; calls := [] |}.

End mock.

(** The create-or-update function cut at its create call. *)
Section CreateUpdateSteps.

Context {World : Type}.
Variable client : @TagClient World.
Variable policyRead :
  pluginsdk.ResourceData → World
  → option error * pluginsdk.ResourceData * World * list Call.

(** The state after one more remote call. *)
Definition called (st : @State World) (w : World) (c : Call) : State :=
  {| d := d st; remote := w; calls := calls st ++ [c] |}.

(** The state in which the create call is made: the incoming state on an
    update; on a first-time creation the state after the presence check,
    when the remote get succeeded or reported not-found and its response
    names no resource. *)
Inductive reaches_create (st : @State World) : State → Prop :=
| reaches_update :
    pluginsdk.IsNewResource (d st) = false →
    reaches_create st st
| reaches_new existing err w :
    pluginsdk.IsNewResource (d st) = true →
    Get client (pluginsdk.Get (d st) "resource_group_name")
               (pluginsdk.Get (d st) "api_management_name")
               (pluginsdk.Get (d st) "tag_id") (remote st)
    = ((existing, err), w) →
    (err = None
     ∨ utils.ResponseWasNotFound (apimanagement.Response existing) = true) →
    has_identity existing = false →
    reaches_create st
      (called st w (CallGet (pluginsdk.Get (d st) "resource_group_name")
                            (pluginsdk.Get (d st) "api_management_name")
                            (pluginsdk.Get (d st) "tag_id"))).

(** The function from its create call on. *)
Definition create_and_confirm
    (tagID resourceGroup serviceName displayName : string) : M unit :=
  '(_, err) ← client_CreateOrUpdate client resourceGroup serviceName tagID
                (parameters_of displayName) "";
  match err with
  | Some err => fail (CreatingOrUpdating tagID resourceGroup serviceName err)
  | None =>
      '(resp, err) ← client_Get client resourceGroup serviceName tagID;
      match err with
      | Some err => fail (Retrieving tagID resourceGroup serviceName err)
      | None =>
          match apimanagement.ID resp with
          | None => fail (CannotReadID tagID resourceGroup serviceName)
          | Some id =>
              modify_d (λ d, pluginsdk.SetId d id);;
              run_resourceApiManagementAPIPolicyRead policyRead
          end
      end
  end.

End CreateUpdateSteps.

(** ** The registration of the resource *)

Module plugin.

(** The schema entries of the resource, by the helper that builds them. *)
Inductive SchemaEntry : Type :=
| SchemaApiManagementChildName
| SchemaResourceGroupName
| SchemaApiManagementName
| RequiredNonEmptyString.

Inductive Importer : Type := DefaultImporter.

(** [pluginsdk.ResourceTimeout], in minutes. *)
Record ResourceTimeout : Type := mkResourceTimeout {
  TimeoutCreate : nat;
  TimeoutRead : nat;
  TimeoutUpdate : nat;
  TimeoutDelete : nat
}.

(** [pluginsdk.Resource]. *)
Record Resource {World : Type} : Type := mkResource {
  Create : @M World unit;
  Read : @M World unit;
  Update : @M World unit;
  Delete : @M World unit;
  ResourceImporter : Importer;
  Timeouts : ResourceTimeout;
  Schema : gmap string SchemaEntry
}.

End plugin.

Section Registration.

Context {World : Type}.
Variable client : @TagClient World.
Variable ServiceName : parse.TagId → string.
Variable policyRead :
  pluginsdk.ResourceData → World
  → option error * pluginsdk.ResourceData * World * list Call.

Definition resourceApiManagementTag : @plugin.Resource World :=
  {| plugin.Create := resourceApiManagementTagCreateUpdate client policyRead;
     plugin.Read := resourceApiManagementTagRead client ServiceName;
     plugin.Update := resourceApiManagementTagCreateUpdate client policyRead;
     plugin.Delete := resourceApiManagementTagDelete client ServiceName;
     plugin.ResourceImporter := plugin.DefaultImporter;
     plugin.Timeouts :=
       {| plugin.TimeoutCreate := 30; plugin.TimeoutRead := 5;
          plugin.TimeoutUpdate := 30; plugin.TimeoutDelete := 30 |};
     plugin.Schema :=
       {[ "tag_id" := plugin.SchemaApiManagementChildName;
          "resource_group_name" := plugin.SchemaResourceGroupName;
          "api_management_name" := plugin.SchemaApiManagementName;
          "display_name" := plugin.RequiredNonEmptyString ]} |}.

End Registration.

(** ** The existence check of the acceptance tests *)

Module ApiManagementTagResource.

(** The two [return nil, err] sites of [Exists]. *)
Inductive error : Type :=
| ParseError (msg : string)
| ReadingTag (id : azure.ResourceID) (err : string).

(** [Exists]: the answer, the remote side afterwards, and the calls made.
    [id.Path["service"]] on a Go map reads [""] for a missing key. *)
Definition Exists {World : Type} (client : @TagClient World)
    (stateID : string) (w : World) : (error + bool) * World * list Call :=
  match azure.ParseAzureResourceID stateID with
  | Err err => (inl (ParseError err), w, [])
  | Ok id =>
      let resourceGroup := azure.ResourceGroup id in
      let serviceName := default "" (azure.Path id !! "service") in
      let tagID := default "" (azure.Path id !! "tags") in
      let '((resp, err), w') :=
        Get client resourceGroup serviceName tagID w in
      match err with
      | Some err =>
          (inl (ReadingTag id err), w',
           [CallGet resourceGroup serviceName tagID])
      | None =>
          (inr (match apimanagement.ID resp with
                | Some _ => true
                | None => false
                end), w',
           [CallGet resourceGroup serviceName tagID])
      end
  end.

End ApiManagementTagResource.

(** ** More vocabulary for the calls *)

Definition is_get (c : Call) : bool :=
  match c with CallGet _ _ _ => true | _ => false end.

Definition is_delete (c : Call) : bool :=
  match c with CallDelete _ _ _ _ => true | _ => false end.

(** The calls the create-or-update function makes for a desired
    configuration: a get or the create call for its tag. *)
Definition own_call (d : pluginsdk.ResourceData) (c : Call) : Prop :=
  c = CallGet (pluginsdk.Get d "resource_group_name")
              (pluginsdk.Get d "api_management_name")
              (pluginsdk.Get d "tag_id")
  ∨ c = CallCreateOrUpdate (pluginsdk.Get d "resource_group_name")
          (pluginsdk.Get d "api_management_name")
          (pluginsdk.Get d "tag_id")
          (parameters_of (pluginsdk.Get d "display_name")) "".

(** A handle of the shape the API Management service gives its tags. *)
Definition service_tag_handle (sub rg svc name : string) : string :=
  "/subscriptions/" +:+ sub +:+ "/resourceGroups/" +:+ rg
  +:+ "/providers/Microsoft.ApiManagement/service/" +:+ svc
  +:+ "/tags/" +:+ name.

(** A handle with the given provider namespace and no parent segment. *)
Definition provider_tag_handle (sub rg provider name : string) : string :=
  "/subscriptions/" +:+ sub +:+ "/resourceGroups/" +:+ rg
  +:+ "/providers/" +:+ provider +:+ "/tags/" +:+ name.

(** A remote side on which every request fails with a server error. *)
Module failing.

Definition server_error : autorest.Response := {| autorest.StatusCode := 500 |}.

Definition no_contract : apimanagement.TagContract :=
  {| apimanagement.Response := server_error;
     apimanagement.ID := None;
     apimanagement.Properties := None |}.

Definition client : @TagClient unit :=
  {| Get := λ _ _ _ w, ((no_contract, Some "InternalServerError"), w);
     CreateOrUpdate := λ _ _ _ _ _ w,
       ((no_contract, Some "InternalServerError"), w);
     Delete := λ _ _ _ _ w, ((server_error, Some "InternalServerError"), w) |}.

Definition policyRead (d : pluginsdk.ResourceData) (w : unit)
  : option error * pluginsdk.ResourceData * unit * list Call :=
  (None, d, w, []).

Definition existing_resource : @State unit :=
  {| d := {| pluginsdk.Id := mock.tag_url; pluginsdk.IsNewResource := false;
             pluginsdk.attributes := mock.desired |};
     remote := (); calls := [] |}.

End failing.

(** * Properties *)

(** ** Splitting and joining paths *)

Lemma append_assoc (a b c : string) : (a +:+ b) +:+ c = a +:+ (b +:+ c).
Proof.
  induction a as [|x a IH]; [reflexivity|].
  change (String x ((a +:+ b) +:+ c) = String x (a +:+ (b +:+ c))).
  by rewrite IH.
Qed.

Lemma app_String (x : ascii) (a r : string) :
  String x a +:+ r = String x (a +:+ r).
Proof. reflexivity. Qed.

Lemma Split_String (x : ascii) (s : string) :
  Ascii.eqb x strings.slash = false →
  strings.Split (String x s)
  = match strings.Split s with
    | [] => [String x EmptyString]
    | piece :: pieces => String x piece :: pieces
    end.
Proof. intros Hx. cbn [strings.Split]. by rewrite Hx. Qed.

Lemma slash_free_String (x : ascii) (a : string) :
  strings.slash_free (String x a) = true →
  Ascii.eqb x strings.slash = false ∧ strings.slash_free a = true.
Proof.
  cbn [strings.slash_free]. intros [Hx Ha]%andb_true_iff.
  by apply negb_true_iff in Hx.
Qed.

Lemma Split_segment (a r : string) :
  strings.slash_free a = true →
  strings.Split (a +:+ String strings.slash r) = a :: strings.Split r.
Proof.
  induction a as [|x a IH]; intros Hfree; [reflexivity|].
  apply slash_free_String in Hfree as [Hx Hfree].
  by rewrite app_String, (Split_String _ _ Hx), (IH Hfree).
Qed.

Lemma Split_slash_free (a : string) :
  strings.slash_free a = true → strings.Split a = [a].
Proof.
  induction a as [|x a IH]; intros Hfree; [reflexivity|].
  apply slash_free_String in Hfree as [Hx Hfree].
  by rewrite (Split_String _ _ Hx), (IH Hfree).
Qed.

(** A path joined from separator-free segments splits into those segments. *)
Lemma Split_Join (segs : list string) :
  segs ≠ [] →
  forallb strings.slash_free segs = true →
  strings.Split (strings.Join segs) = segs.
Proof.
  induction segs as [|a [|b rest] IH]; intros Hne Hfree; [done| |].
  - cbn in Hfree. apply andb_true_iff in Hfree as [Ha _].
    by apply Split_slash_free.
  - apply andb_true_iff in Hfree as [Ha Hrest].
    change (strings.Join (a :: b :: rest))
      with (a +:+ String strings.slash (strings.Join (b :: rest))).
    rewrite (Split_segment _ _ Ha). f_equal. by apply IH.
Qed.

Lemma Join_snoc (segs : list string) (a : string) :
  segs ≠ [] →
  strings.Join (segs ++ [a]) = strings.Join segs +:+ String strings.slash a.
Proof.
  induction segs as [|x [|y rest] IH]; intros Hne; [done|reflexivity|].
  change (strings.Join ((x :: y :: rest) ++ [a]))
    with (x +:+ String strings.slash (strings.Join ((y :: rest) ++ [a]))).
  rewrite IH by done.
  change (strings.Join (x :: y :: rest))
    with (x +:+ String strings.slash (strings.Join (y :: rest))).
  by rewrite append_assoc.
Qed.

(** ** The component map against the list of segment pairs *)

Lemma foldl_insert_lookup (kvs : list (string * string))
    (m : gmap string string) (key : string) :
  foldl (λ m kv, <[strings.ToLower kv.1 := kv.2]> m) m kvs !! key
  = match segments.segment_value key kvs with Some v => Some v | None => m !! key end.
Proof.
  revert m. induction kvs as [|kv rest IH]; intros m; [reflexivity|].
  cbn [foldl segments.segment_value]. rewrite IH.
  destruct (segments.segment_value key rest); [reflexivity|].
  rewrite lookup_insert. by repeat case_decide.
Qed.

Lemma componentMap_lookup (kvs : list (string * string)) (key : string) :
  azure.componentMap kvs !! key = segments.segment_value key kvs.
Proof.
  unfold azure.componentMap. rewrite foldl_insert_lookup.
  by destruct (segments.segment_value key kvs).
Qed.

Lemma segment_value_None (key : string) (kvs : list (string * string)) :
  segments.segment_value key kvs = None ↔ key ∉ segments.keys kvs.
Proof.
  induction kvs as [|kv rest IH]; cbn [segments.segment_value].
  - split; [intros _; apply not_elem_of_nil | done].
  - unfold segments.keys in *. rewrite fmap_cons, not_elem_of_cons.
    destruct (segments.segment_value key rest) eqn:Hrest.
    + split; [done|]. intros [_ Hnot]. by apply IH in Hnot.
    + case_decide as Hk; split; try done.
      * intros [Hne _]. by destruct Hne.
      * intros _. split; [congruence | by apply IH].
Qed.

Lemma recognized_spec (k : string) :
  segments.recognized k = true
  ↔ k = "subscriptions" ∨ k = "resourcegroups" ∨ k = "providers" ∨ k = "tags".
Proof.
  unfold segments.recognized.
  rewrite !orb_true_iff, !String.eqb_eq. tauto.
Qed.

Lemma remaining_lookup (m : gmap string string) (k : string) :
  segments.remaining m !! k = if segments.recognized k then None else m !! k.
Proof.
  unfold segments.remaining. destruct (segments.recognized k) eqn:Hk.
  - apply recognized_spec in Hk as [-> | [-> | [-> | ->]]];
      rewrite !lookup_delete; by repeat case_decide.
  - assert (¬ (k = "subscriptions" ∨ k = "resourcegroups"
               ∨ k = "providers" ∨ k = "tags")) as Hne.
    { rewrite <- recognized_spec. by rewrite Hk. }
    rewrite !lookup_delete_ne by (intros <-; tauto). done.
Qed.

Lemma unexpected_keys_nil (kvs : list (string * string)) :
  segments.unexpected_keys kvs = []
  ↔ ∀ k, k ∈ segments.keys kvs → segments.recognized k = true.
Proof.
  unfold segments.unexpected_keys. split.
  - intros Hnil k Hk. destruct (segments.recognized k) eqn:Hrec; [done|].
    by destruct (filter_nil_not_elem_of _ _ k Hnil Hrec).
  - intros Hall.
    destruct (filter _ (segments.keys kvs)) as [|k l] eqn:Hfilter; [done|].
    assert (k ∈ filter (λ k, segments.recognized k = false) (segments.keys kvs))
      as [Hrec Hk]%list_elem_of_filter by (rewrite Hfilter; left).
    apply Hall in Hk. congruence.
Qed.

Lemma remaining_empty (kvs : list (string * string)) :
  segments.remaining (azure.componentMap kvs) = ∅ ↔ segments.unexpected_keys kvs = [].
Proof.
  rewrite unexpected_keys_nil. split.
  - intros Hempty k Hk.
    destruct (segments.recognized k) eqn:Hrec; [done|].
    assert (segments.remaining (azure.componentMap kvs) !! k = None) as Hnone
      by (by rewrite Hempty, lookup_empty).
    rewrite remaining_lookup, Hrec, componentMap_lookup in Hnone.
    by apply segment_value_None in Hnone.
  - intros Hall. apply map_eq. intros k.
    rewrite lookup_empty, remaining_lookup.
    destruct (segments.recognized k) eqn:Hrec; [done|].
    rewrite componentMap_lookup. apply segment_value_None.
    intros Hk. apply Hall in Hk. congruence.
Qed.

Lemma first_remaining_filter (kvs : list (string * string)) (ks : list string) :
  ks ⊆ segments.keys kvs →
  azure.first_remaining (segments.remaining (azure.componentMap kvs)) ks
  = head (filter (λ k, segments.recognized k = false) ks).
Proof.
  induction ks as [|k ks IH]; intros Hsub; [reflexivity|].
  cbn [azure.first_remaining].
  rewrite remaining_lookup, componentMap_lookup.
  assert (k ∈ segments.keys kvs) as Hk by (apply Hsub; left).
  assert (ks ⊆ segments.keys kvs) as Hks
    by (intros x Hx; apply Hsub; by right).
  destruct (segments.recognized k) eqn:Hrec.
  - rewrite filter_cons_False by congruence. by apply IH.
  - rewrite filter_cons_True by done.
    destruct (segments.segment_value k kvs) eqn:Hv; [done|].
    by apply segment_value_None in Hv.
Qed.

(** ** The parser against the list-level reading *)

Lemma TagID_unpaired (input : string) :
  azure.segment_pairs input = None →
  parse.TagID input
  = Err "ID does not consist of alternating type/value segments".
Proof.
  intros Hpairs. unfold parse.TagID, azure.ParseAzureResourceID.
  by rewrite Hpairs.
Qed.

Lemma TagID_pairs (input : string) (kvs : list (string * string)) :
  azure.segment_pairs input = Some kvs →
  parse.TagID input = segments.TagID_by_segments kvs.
Proof.
  intros Hpairs.
  unfold parse.TagID, azure.ParseAzureResourceID, segments.TagID_by_segments.
  rewrite Hpairs. cbn [azure.SubscriptionID azure.ResourceGroup].
  rewrite !componentMap_lookup.
  case_decide; [done|]. case_decide; [done|].
  unfold azure.PopSegment. cbn [azure.Path azure.SubscriptionID
    azure.ResourceGroup azure.Provider].
  change (strings.ToLower "tags") with "tags".
  rewrite !lookup_delete_ne by done. rewrite componentMap_lookup.
  destruct (segments.segment_value "tags" kvs) as [name|]; [|done].
  unfold azure.ValidateNoEmptySegments. cbn [azure.Path].
  fold (segments.remaining (azure.componentMap kvs)).
  unfold azure.source_keys. rewrite Hpairs.
  fold (segments.keys kvs). rewrite first_remaining_filter by done.
  fold (segments.unexpected_keys kvs).
  case_decide as Hempty.
  - apply remaining_empty in Hempty. by rewrite Hempty.
  - destruct (segments.unexpected_keys kvs) as [|k l] eqn:Hkeys; [|done].
    by apply remaining_empty in Hkeys.
Qed.

(** ** The codec: rendering and parsing *)

Example ex_render :
  parse.ID (parse.NewTagID "sub1" "rg1" "tag1")
  = "/subscriptions/sub1/resourceGroups/rg1/providers/Microsoft.AnalysisServices/tags/tag1".
Proof. reflexivity. Qed.

Example ex_parse :
  parse.TagID "/subscriptions/sub1/resourceGroups/rg1/providers/Microsoft.AnalysisServices/tags/tag1"
  = Ok (parse.NewTagID "sub1" "rg1" "tag1").
Proof. vm_compute. reflexivity. Qed.

Example ex_parse_apim :
  parse.TagID "/subscriptions/sub1/resourceGroups/rg1/providers/Microsoft.ApiManagement/service/svc1/tags/tag1"
  = Err "ID contained an unexpected segment: service".
Proof. vm_compute. reflexivity. Qed.

Example ex_parse_recased :
  parse.TagID "/SUBSCRIPTIONS/sub1/resourcegroups/rg1/Providers/Microsoft.AnalysisServices/TAGS/Tag1"
  = Ok (parse.NewTagID "sub1" "rg1" "Tag1").
Proof. vm_compute. reflexivity. Qed.

Example ex_parse_empty_name :
  parse.TagID "/subscriptions/sub1/resourceGroups/rg1/providers/Microsoft.AnalysisServices/tags/"
  = Ok (parse.NewTagID "sub1" "rg1" "").
Proof. vm_compute. reflexivity. Qed.

Lemma valid_field_spec (s : string) :
  segments.valid_field s = true ↔ s ≠ "" ∧ strings.slash_free s = true.
Proof.
  unfold segments.valid_field.
  rewrite andb_true_iff, negb_true_iff, String.eqb_neq. tauto.
Qed.

(** The segment pairs of a rendered identity. *)
Lemma segment_pairs_ID (id : parse.TagId) :
  strings.slash_free (parse.SubscriptionId id) = true →
  strings.slash_free (parse.ResourceGroup id) = true →
  strings.slash_free (parse.Name id) = true →
  azure.segment_pairs (parse.ID id)
  = Some [("subscriptions", parse.SubscriptionId id);
          ("resourceGroups", parse.ResourceGroup id);
          ("providers", "Microsoft.AnalysisServices");
          ("tags", parse.Name id)].
Proof.
  destruct id as [sub rg name]. cbn [parse.SubscriptionId parse.ResourceGroup
    parse.Name]. intros Hsub Hrg Hname.
  unfold azure.segment_pairs.
  change (strings.TrimPrefix (parse.ID (parse.mkTagId sub rg name)))
    with (strings.Join ["subscriptions"; sub; "resourceGroups"; rg;
                        "providers"; "Microsoft.AnalysisServices";
                        "tags"; name]).
  rewrite Split_Join; [reflexivity | done |].
  cbn [forallb]. rewrite Hsub, Hrg, Hname. reflexivity.
Qed.

(** The list-level reading of the pairs of a rendered identity. *)
Lemma TagID_by_segments_rendered (sub rg name : string) :
  sub ≠ "" → rg ≠ "" →
  segments.TagID_by_segments
    [("subscriptions", sub); ("resourceGroups", rg);
     ("providers", "Microsoft.AnalysisServices"); ("tags", name)]
  = Ok (parse.NewTagID sub rg name).
Proof.
  intros Hsub Hrg. unfold segments.TagID_by_segments.
  set (kvs := [("subscriptions", sub); _; _; _]).
  assert (segments.segment_value "subscriptions" kvs = Some sub) as ->
    by reflexivity.
  assert (segments.segment_value "resourcegroups" kvs = Some rg) as ->
    by reflexivity.
  assert (segments.segment_value "tags" kvs = Some name) as -> by reflexivity.
  assert (segments.unexpected_keys kvs = []) as -> by reflexivity.
  cbn [default]. by rewrite !decide_False by done.
Qed.

Lemma valid_id_spec (id : parse.TagId) :
  segments.valid_id id = true
  ↔ (parse.SubscriptionId id ≠ ""
     ∧ strings.slash_free (parse.SubscriptionId id) = true)
    ∧ (parse.ResourceGroup id ≠ ""
       ∧ strings.slash_free (parse.ResourceGroup id) = true)
    ∧ (parse.Name id ≠ "" ∧ strings.slash_free (parse.Name id) = true).
Proof.
  unfold segments.valid_id. rewrite !andb_true_iff, !valid_field_spec. tauto.
Qed.

(** C1 (as amended): for every identity whose fields are non-empty and free
    of the path separator ["/"], parsing the string produced by rendering it
    succeeds and yields the original identity. *)
Theorem TagID_ID_roundtrip (id : parse.TagId) :
  segments.valid_id id = true →
  parse.TagID (parse.ID id) = Ok id.
Proof.
  intros ([Hsub Fsub] & [Hrg Frg] & [Hname Fname])%valid_id_spec.
  rewrite (TagID_pairs _ _ (segment_pairs_ID id Fsub Frg Fname)).
  destruct id as [sub rg name].
  cbn [parse.SubscriptionId parse.ResourceGroup parse.Name] in *.
  by apply TagID_by_segments_rendered.
Qed.

Lemma TagID_ID_roundtrip_witness :
  parse.TagID (parse.ID (parse.NewTagID "sub1" "rg1" "tag1"))
  = Ok (parse.NewTagID "sub1" "rg1" "tag1").
Proof. apply TagID_ID_roundtrip. reflexivity. Defined.

(** C1 (as stated) fails: an identity whose fields are all non-empty but
    whose name holds a path separator does not survive the round trip. *)
Lemma roundtrip_fails_on_separator :
  let id := parse.NewTagID "sub1" "rg1" "a/b" in
  (parse.SubscriptionId id ≠ "" ∧ parse.ResourceGroup id ≠ ""
   ∧ parse.Name id ≠ "")
  ∧ parse.TagID (parse.ID id) ≠ Ok id.
Proof. vm_compute. repeat split; discriminate. Qed.

(** C2: the code at the identity of the example.  The rendered string names
    the provider [Microsoft.AnalysisServices] and has no [service] segment
    (the struct has no field for the service name), and the string the
    example expects is rejected by the parser. *)
Theorem ID_example_renders_other_string :
  parse.ID (parse.NewTagID "sub1" "rg1" "tag1")
  = "/subscriptions/sub1/resourceGroups/rg1/providers/Microsoft.AnalysisServices/tags/tag1"
  ∧ parse.ID (parse.NewTagID "sub1" "rg1" "tag1")
    ≠ "/subscriptions/sub1/resourceGroups/rg1/providers/Microsoft.ApiManagement/service/svc1/tags/tag1"
  ∧ parse.TagID "/subscriptions/sub1/resourceGroups/rg1/providers/Microsoft.ApiManagement/service/svc1/tags/tag1"
    = Err "ID contained an unexpected segment: service".
Proof. vm_compute. repeat split; discriminate. Qed.

Lemma segment_value_snoc (key k v : string) (kvs : list (string * string)) :
  segments.segment_value key (kvs ++ [(k, v)])
  = if decide (strings.ToLower k = key) then Some v
    else segments.segment_value key kvs.
Proof.
  induction kvs as [|kv rest IH]; cbn [app segments.segment_value fst snd].
  - by case_decide.
  - rewrite IH. case_decide; [done|].
    by destruct (segments.segment_value key rest).
Qed.

Lemma unexpected_keys_snoc (k v : string) (kvs : list (string * string)) :
  segments.recognized (strings.ToLower k) = false →
  segments.unexpected_keys (kvs ++ [(k, v)])
  = segments.unexpected_keys kvs ++ [strings.ToLower k].
Proof.
  intros Hk. unfold segments.unexpected_keys, segments.keys.
  rewrite fmap_app, filter_app. f_equal.
  cbn [fmap list_fmap fst]. by rewrite filter_cons_True.
Qed.

Lemma recognized_false (k : string) :
  segments.recognized k = false →
  k ≠ "subscriptions" ∧ k ≠ "resourcegroups" ∧ k ≠ "providers" ∧ k ≠ "tags".
Proof.
  intros Hk. repeat split; intros ->; discriminate.
Qed.

(** The segment pairs of a rendered identity followed by one more pair. *)
Lemma segment_pairs_ID_extra (id : parse.TagId) (k v : string) :
  strings.slash_free (parse.SubscriptionId id) = true →
  strings.slash_free (parse.ResourceGroup id) = true →
  strings.slash_free (parse.Name id) = true →
  strings.slash_free k = true →
  strings.slash_free v = true →
  azure.segment_pairs (parse.ID id +:+ "/" +:+ k +:+ "/" +:+ v)
  = Some ([("subscriptions", parse.SubscriptionId id);
           ("resourceGroups", parse.ResourceGroup id);
           ("providers", "Microsoft.AnalysisServices");
           ("tags", parse.Name id)] ++ [(k, v)]).
Proof.
  destruct id as [sub rg name]. cbn [parse.SubscriptionId parse.ResourceGroup
    parse.Name]. intros Hsub Hrg Hname Hk Hv.
  unfold azure.segment_pairs.
  set (segs := ["subscriptions"; sub; "resourceGroups"; rg;
                "providers"; "Microsoft.AnalysisServices"; "tags"; name]).
  change (parse.ID (parse.mkTagId sub rg name))
    with (String strings.slash (strings.Join segs)).
  change ("/" +:+ k +:+ "/" +:+ v)
    with (String strings.slash k +:+ String strings.slash v).
  rewrite app_String. cbn [strings.TrimPrefix].
  change (Ascii.eqb strings.slash strings.slash) with true. cbv iota.
  rewrite <- append_assoc, <- !Join_snoc by done.
  rewrite Split_Join; [reflexivity | done |].
  subst segs. cbn [app forallb]. rewrite Hsub, Hrg, Hname, Hk, Hv. reflexivity.
Qed.

(** Whenever the parser returns an identity, no segment of the input was
    left unconsumed. *)
Lemma TagID_Ok_consumes_all (input : string) (id : parse.TagId) :
  parse.TagID input = Ok id →
  ∃ kvs, azure.segment_pairs input = Some kvs
         ∧ segments.unexpected_keys kvs = [].
Proof.
  intros Hok. destruct (azure.segment_pairs input) as [kvs|] eqn:Hpairs.
  - exists kvs. split; [done|]. rewrite (TagID_pairs _ _ Hpairs) in Hok.
    unfold segments.TagID_by_segments in Hok.
    repeat case_decide; try done.
    destruct (segments.segment_value "tags" kvs); [|done].
    by destruct (segments.unexpected_keys kvs).
  - by rewrite (TagID_unpaired _ Hpairs) in Hok.
Qed.

(** C3: a canonical identifier followed by one extra [/type/value] pair whose
    type is none of the segment keys the decoder recognizes is rejected, with
    an error naming that key; and the parser never returns an identity while
    an unconsumed segment remains. *)
Theorem TagID_rejects_extra_segment (id : parse.TagId) (k v : string) :
  segments.valid_id id = true →
  strings.slash_free k = true →
  strings.slash_free v = true →
  segments.recognized (strings.ToLower k) = false →
  parse.TagID (parse.ID id +:+ "/" +:+ k +:+ "/" +:+ v)
  = Err ("ID contained an unexpected segment: " +:+ strings.ToLower k)
  ∧ (∀ id', parse.TagID (parse.ID id +:+ "/" +:+ k +:+ "/" +:+ v) ≠ Ok id')
  ∧ (∀ input id', parse.TagID input = Ok id' →
       ∃ kvs, azure.segment_pairs input = Some kvs
              ∧ segments.unexpected_keys kvs = []).
Proof.
  intros ([Hsub Fsub] & [Hrg Frg] & [Hname Fname])%valid_id_spec Fk Fv Hk.
  assert (parse.TagID (parse.ID id +:+ "/" +:+ k +:+ "/" +:+ v)
          = Err ("ID contained an unexpected segment: " +:+ strings.ToLower k))
    as Herr;
    [|split; [done | split; [by rewrite Herr | apply TagID_Ok_consumes_all]]].
  rewrite (TagID_pairs _ _ (segment_pairs_ID_extra id k v Fsub Frg Fname Fk Fv)).
  destruct id as [sub rg name]. cbn [parse.SubscriptionId parse.ResourceGroup
    parse.Name] in *.
  apply recognized_false in Hk as Hne. destruct Hne as (Ns & Nr & _ & Nt).
  unfold segments.TagID_by_segments.
  rewrite !segment_value_snoc, unexpected_keys_snoc by done.
  rewrite (decide_False (P := strings.ToLower k = "subscriptions")) by done.
  rewrite (decide_False (P := strings.ToLower k = "resourcegroups")) by done.
  rewrite (decide_False (P := strings.ToLower k = "tags")) by done.
  set (kvs := [("subscriptions", sub); _; _; _]).
  assert (segments.segment_value "subscriptions" kvs = Some sub) as ->
    by reflexivity.
  assert (segments.segment_value "resourcegroups" kvs = Some rg) as ->
    by reflexivity.
  assert (segments.segment_value "tags" kvs = Some name) as -> by reflexivity.
  assert (segments.unexpected_keys kvs = []) as -> by reflexivity.
  cbn [default app]. by rewrite !decide_False by done.
Qed.

Lemma TagID_rejects_extra_segment_witness :
  parse.TagID (parse.ID (parse.NewTagID "sub1" "rg1" "tag1")
               +:+ "/" +:+ "Operations" +:+ "/" +:+ "op1")
  = Err "ID contained an unexpected segment: operations".
Proof.
  apply (TagID_rejects_extra_segment (parse.NewTagID "sub1" "rg1" "tag1")
           "Operations" "op1"); reflexivity.
Defined.

Lemma lacks_input_value (key input : string) :
  segments.lacks key input = true → segments.input_value key input = None.
Proof.
  unfold segments.lacks, segments.input_value, azure.source_keys.
  intros Hlacks%bool_decide_eq_true.
  destruct (azure.segment_pairs input) as [kvs|]; [|done].
  by apply segment_value_None.
Qed.

Lemma missing_default (key input : string) (kvs : list (string * string)) :
  azure.segment_pairs input = Some kvs →
  segments.missing key input = true
  ↔ default "" (segments.segment_value key kvs) = "".
Proof.
  intros Hpairs. unfold segments.missing. rewrite orb_true_iff. split.
  - intros [Hlacks%lacks_input_value | Hempty].
    + unfold segments.input_value in Hlacks. rewrite Hpairs in Hlacks.
      by rewrite Hlacks.
    + unfold segments.empty_value, segments.input_value in Hempty.
      rewrite Hpairs in Hempty.
      destruct (segments.segment_value key kvs) as [v|]; [|done].
      by apply String.eqb_eq in Hempty.
  - intros Hdefault.
    unfold segments.empty_value, segments.input_value. rewrite Hpairs.
    destruct (segments.segment_value key kvs) as [v|] eqn:Hv.
    + right. by apply String.eqb_eq.
    + left. unfold segments.lacks, azure.source_keys. rewrite Hpairs.
      apply bool_decide_eq_true. by apply segment_value_None.
Qed.

(** C4: an input that lacks the [subscriptions], the [resourceGroups] or the
    [tags] segment, or gives [subscriptions] or [resourceGroups] the empty
    value, is never parsed into an identity; when the input splits into
    type/value pairs, a missing subscription is reported as
    "ID was missing the 'subscriptions' element" and, the subscription being
    there, a missing resource group as
    "ID was missing the 'resourceGroups' element". *)
Theorem TagID_rejects_missing_segments (input : string) :
  (segments.missing "subscriptions" input
   || segments.missing "resourcegroups" input
   || segments.lacks "tags" input = true →
   is_err (parse.TagID input) ∧ ∀ id, parse.TagID input ≠ Ok id)
  ∧ (is_Some (azure.segment_pairs input) →
     segments.missing "subscriptions" input = true →
     parse.TagID input = Err "ID was missing the 'subscriptions' element")
  ∧ (is_Some (azure.segment_pairs input) →
     segments.missing "subscriptions" input = false →
     segments.missing "resourcegroups" input = true →
     parse.TagID input = Err "ID was missing the 'resourceGroups' element").
Proof.
  destruct (azure.segment_pairs input) as [kvs|] eqn:Hpairs.
  - pose proof (missing_default "subscriptions" input kvs Hpairs) as Hsub.
    pose proof (missing_default "resourcegroups" input kvs Hpairs) as Hrg.
    rewrite (TagID_pairs _ _ Hpairs). unfold segments.TagID_by_segments.
    split; [|split].
    + rewrite !orb_true_iff. intros Hmissing.
      case_decide as Dsub; [by split|]. case_decide as Drg; [by split|].
      destruct Hmissing as [[Hm|Hm]|Hlacks];
        [by apply Hsub in Hm | by apply Hrg in Hm |].
      apply lacks_input_value in Hlacks.
      unfold segments.input_value in Hlacks. rewrite Hpairs in Hlacks.
      by rewrite Hlacks.
    + intros _ Hm%Hsub. by rewrite decide_True.
    + intros _ Hns Hm%Hrg.
      rewrite decide_False, decide_True; [done..|].
      intros Hdefault%Hsub. congruence.
  - rewrite (TagID_unpaired _ Hpairs).
    split; [by split | split; by intros []%is_Some_None].
Qed.

Lemma TagID_rejects_missing_segments_witness :
  parse.TagID "/subscriptions/sub1/providers/Microsoft.AnalysisServices/tags/tag1"
  = Err "ID was missing the 'resourceGroups' element"
  ∧ is_err (parse.TagID "/subscriptions/sub1/resourceGroups/rg1/providers/Microsoft.AnalysisServices")
  ∧ parse.TagID "/resourceGroups/rg1/providers/Microsoft.AnalysisServices/tags/tag1"
    = Err "ID was missing the 'subscriptions' element".
Proof.
  split; [|split].
  - apply TagID_rejects_missing_segments; [by eexists | reflexivity..].
  - apply TagID_rejects_missing_segments. reflexivity.
  - apply TagID_rejects_missing_segments; [by eexists | reflexivity].
Defined.

(** ** Case of the segment keys *)

Lemma list_pair_ind {A : Type} (P : list A → Prop) :
  P [] → (∀ x, P [x]) → (∀ x y l, P l → P (x :: y :: l)) → ∀ l, P l.
Proof.
  intros Hnil Hone Hstep l.
  enough (P l ∧ ∀ x, P (x :: l)) as [Hl _] by done.
  induction l as [|y l [IHl IHcons]]; split; auto.
Qed.

Lemma recased_pair_up (l1 l2 : list string) :
  segments.recased l1 l2 = true →
  match azure.pair_up l1, azure.pair_up l2 with
  | Some kvs1, Some kvs2 => segments.same_pairs kvs1 kvs2
  | None, None => True
  | _, _ => False
  end.
Proof.
  revert l2. induction l1 as [|k1|k1 v1 r1 IH] using list_pair_ind;
    intros [|k2 [|v2 r2]]; try done.
  - intros _. constructor.
  - cbn [segments.recased azure.pair_up].
    rewrite !andb_true_iff, !String.eqb_eq. intros [[Hk ->] Hrest].
    specialize (IH r2 Hrest).
    destruct (azure.pair_up r1), (azure.pair_up r2); try done.
    by constructor.
Qed.

Lemma same_pairs_keys (kvs1 kvs2 : list (string * string)) :
  segments.same_pairs kvs1 kvs2 → segments.keys kvs1 = segments.keys kvs2.
Proof.
  induction 1 as [|a b l1 l2 [Hk _] _ IH]; [done|].
  unfold segments.keys in *. rewrite !fmap_cons. by f_equal.
Qed.

Lemma same_pairs_segment_value (key : string)
    (kvs1 kvs2 : list (string * string)) :
  segments.same_pairs kvs1 kvs2 →
  segments.segment_value key kvs1 = segments.segment_value key kvs2.
Proof.
  induction 1 as [|a b l1 l2 [Hk Hv] _ IH]; [done|].
  cbn [segments.segment_value]. by rewrite IH, Hk, Hv.
Qed.

Lemma TagID_recased (s1 s2 : string) :
  segments.recased (strings.Split (strings.TrimPrefix s1))
                   (strings.Split (strings.TrimPrefix s2)) = true →
  parse.TagID s1 = parse.TagID s2.
Proof.
  intros Hrecased%recased_pair_up.
  fold (azure.segment_pairs s1) in Hrecased.
  fold (azure.segment_pairs s2) in Hrecased.
  destruct (azure.segment_pairs s1) as [kvs1|] eqn:H1,
           (azure.segment_pairs s2) as [kvs2|] eqn:H2; try done.
  - rewrite (TagID_pairs _ _ H1), (TagID_pairs _ _ H2).
    unfold segments.TagID_by_segments, segments.unexpected_keys.
    rewrite (same_pairs_keys _ _ Hrecased).
    by rewrite !(same_pairs_segment_value _ _ _ Hrecased).
  - by rewrite (TagID_unpaired _ H1), (TagID_unpaired _ H2).
Qed.

(** C5: two identity strings whose segments differ only in the case of the
    segment keys parse to the same result, while the values are taken as they
    are: rendered identities with different field values (differing by case
    or otherwise) parse to different results. *)
Theorem TagID_key_case_insensitive (s1 s2 : string) :
  segments.recased (strings.Split (strings.TrimPrefix s1))
                   (strings.Split (strings.TrimPrefix s2)) = true →
  parse.TagID s1 = parse.TagID s2
  ∧ ∀ id1 id2, segments.valid_id id1 = true → segments.valid_id id2 = true →
               parse.TagID (parse.ID id1) = parse.TagID (parse.ID id2) →
               id1 = id2.
Proof.
  intros Hrecased. split; [by apply TagID_recased|].
  intros [sub1 rg1 name1] [sub2 rg2 name2].
  intros ([Hsub1 Fsub1] & [Hrg1 Frg1] & [_ Fname1])%valid_id_spec.
  intros ([Hsub2 Fsub2] & [Hrg2 Frg2] & [_ Fname2])%valid_id_spec.
  rewrite (TagID_pairs _ _ (segment_pairs_ID _ Fsub1 Frg1 Fname1)).
  rewrite (TagID_pairs _ _ (segment_pairs_ID _ Fsub2 Frg2 Fname2)).
  cbn [parse.SubscriptionId parse.ResourceGroup parse.Name] in *.
  rewrite !TagID_by_segments_rendered by done.
  unfold parse.NewTagID. congruence.
Qed.

Lemma TagID_key_case_insensitive_witness :
  parse.TagID "/subscriptions/x/resourcegroups/y/providers/Microsoft.AnalysisServices/TAGS/z"
  = parse.TagID "/subscriptions/x/resourceGroups/y/providers/Microsoft.AnalysisServices/tags/z".
Proof.
  apply (TagID_key_case_insensitive
    "/subscriptions/x/resourcegroups/y/providers/Microsoft.AnalysisServices/TAGS/z"
    "/subscriptions/x/resourceGroups/y/providers/Microsoft.AnalysisServices/tags/z").
  reflexivity.
Defined.

(** ** The resource functions *)

Section ResourceProperties.

Context {World : Type}.
Variable client : @TagClient World.
Variable ServiceName : parse.TagId → string.
Variable policyRead :
  pluginsdk.ResourceData → World
  → option error * pluginsdk.ResourceData * World * list Call.

Ltac run :=
  unfold resourceApiManagementTagCreateUpdate, resourceApiManagementTagRead,
    resourceApiManagementTagDelete, create_and_confirm,
    run_resourceApiManagementAPIPolicyRead,
    client_Get, client_CreateOrUpdate, client_Delete, remote_call, get_d,
    modify_d, fail, mbind, M_bind, mret, M_ret, called, utils.String_;
  cbn [d remote calls].

Lemma CreateUpdate_from_create (st st1 : State) :
  reaches_create client st st1 →
  resourceApiManagementTagCreateUpdate client policyRead st
  = create_and_confirm client policyRead
      (pluginsdk.Get (d st) "tag_id")
      (pluginsdk.Get (d st) "resource_group_name")
      (pluginsdk.Get (d st) "api_management_name")
      (pluginsdk.Get (d st) "display_name") st1.
Proof.
  intros [Hupdate | existing err w Hnew Hget Herr Hid].
  - run. rewrite Hupdate. reflexivity.
  - run. rewrite Hnew. run. rewrite Hget. run.
    unfold has_identity in Hid.
    destruct Herr as [-> | Hnf]; [|destruct err as [e|]; [rewrite Hnf|]];
      cbn [negb]; destruct (apimanagement.ID existing) as [id|];
      rewrite ?Hid; reflexivity.
Qed.

(** From the create call on, the create call is the next one logged. *)
Lemma create_and_confirm_calls
    (tagID resourceGroup serviceName displayName : string) (st1 : State) :
  ∃ res st',
    create_and_confirm client policyRead tagID resourceGroup serviceName
      displayName st1 = (res, st')
    ∧ calls st1 ++ [CallCreateOrUpdate resourceGroup serviceName tagID
                      (parameters_of displayName) ""]
      `prefix_of` calls st'.
Proof.
  run.
  destruct (CreateOrUpdate client resourceGroup serviceName tagID
              (parameters_of displayName) "" (remote st1))
    as [[created [cerr|]] w2]; cbn [d remote calls].
  { eexists _, _. split; [reflexivity | done]. }
  destruct (Get client resourceGroup serviceName tagID w2)
    as [[resp [rerr|]] w3]; cbn [d remote calls].
  { eexists _, _. split; [reflexivity | by apply prefix_app_r]. }
  destruct (apimanagement.ID resp) as [id|].
  - cbn [d remote calls].
    match goal with
    | |- context [policyRead ?a ?b] =>
        destruct (policyRead a b) as [[[[perr|] d'] w4] cs]
    end; cbn [d remote calls];
      eexists _, _; (split; [reflexivity|]); cbn [calls];
      rewrite <- !(assoc_L (++)); apply prefix_app, prefix_app_r; done.
  - eexists _, _. split; [reflexivity | by apply prefix_app_r].
Qed.

(** C6: on a first-time creation the remote get comes first.  If it
    succeeds and names an existing resource, the function fails with
    [AlreadyExists] having made no other call (so no create call); if it
    reports not-found (and, as then, names no resource), the next call is
    the create call; any other failure of the get is returned as
    [RemoteCallFailed]. *)
Theorem CreateUpdate_create_guard (st : State)
    (existing : apimanagement.TagContract) (err : option string) (w : World) :
  let tagID := pluginsdk.Get (d st) "tag_id" in
  let resourceGroup := pluginsdk.Get (d st) "resource_group_name" in
  let serviceName := pluginsdk.Get (d st) "api_management_name" in
  let displayName := pluginsdk.Get (d st) "display_name" in
  let st1 := called st w (CallGet resourceGroup serviceName tagID) in
  pluginsdk.IsNewResource (d st) = true →
  Get client resourceGroup serviceName tagID (remote st)
  = ((existing, err), w) →
  (∀ id, err = None → apimanagement.ID existing = Some id → id ≠ "" →
     resourceApiManagementTagCreateUpdate client policyRead st
     = (inl (ImportAsExistsError "azurerm_api_management_tag" id), st1)
     ∧ kind_of (ImportAsExistsError "azurerm_api_management_tag" id)
       = AlreadyExists
     ∧ filter (λ c, is_create c = true) (calls st1)
       = filter (λ c, is_create c = true) (calls st))
  ∧ (∀ e, err = Some e →
       utils.ResponseWasNotFound (apimanagement.Response existing) = true →
       has_identity existing = false →
       ∃ res st',
         resourceApiManagementTagCreateUpdate client policyRead st = (res, st')
         ∧ calls st1 ++ [CallCreateOrUpdate resourceGroup serviceName tagID
                           (parameters_of displayName) ""]
           `prefix_of` calls st')
  ∧ (∀ e, err = Some e →
       utils.ResponseWasNotFound (apimanagement.Response existing) = false →
       resourceApiManagementTagCreateUpdate client policyRead st
       = (inl (CheckingPresence serviceName resourceGroup e), st1)
       ∧ kind_of (CheckingPresence serviceName resourceGroup e)
         = RemoteCallFailed).
Proof.
  intros tagID resourceGroup serviceName displayName st1 Hnew Hget.
  subst tagID resourceGroup serviceName displayName st1. split; [|split].
  - intros id -> Hid Hne. split; [|split; [done|]].
    + run. rewrite Hnew. run. rewrite Hget. run.
      rewrite Hid. apply String.eqb_neq in Hne. by rewrite Hne.
    + unfold called. cbn [calls]. by rewrite filter_app, app_nil_r.
  - intros e -> Hnf Hid.
    rewrite (CreateUpdate_from_create st _
               (reaches_new client st existing (Some e) w Hnew Hget
                  (or_intror Hnf) Hid)).
    apply create_and_confirm_calls.
  - intros e -> Hnf. split; [|done].
    run. rewrite Hnew. run. rewrite Hget. run. by rewrite Hnf.
Qed.

(** C7: once the create call has succeeded the resource is read again.  A
    failed read is returned as [RemoteCallFailed]; a read without identity
    as [EmptyIdentity], with no further call; otherwise the identity read
    becomes the handle ([d.SetId]) and the function ends with the trailing
    read, run on the resource data carrying that handle. *)
Theorem CreateUpdate_confirming_read (st st1 : State)
    (created resp : apimanagement.TagContract) (rerr : option string)
    (w2 w3 : World) :
  let tagID := pluginsdk.Get (d st) "tag_id" in
  let resourceGroup := pluginsdk.Get (d st) "resource_group_name" in
  let serviceName := pluginsdk.Get (d st) "api_management_name" in
  let displayName := pluginsdk.Get (d st) "display_name" in
  let st3 :=
    called (called st1 w2 (CallCreateOrUpdate resourceGroup serviceName tagID
                             (parameters_of displayName) ""))
           w3 (CallGet resourceGroup serviceName tagID) in
  reaches_create client st st1 →
  CreateOrUpdate client resourceGroup serviceName tagID
    (parameters_of displayName) "" (remote st1) = ((created, None), w2) →
  Get client resourceGroup serviceName tagID w2 = ((resp, rerr), w3) →
  match rerr, apimanagement.ID resp with
  | Some e, _ =>
      resourceApiManagementTagCreateUpdate client policyRead st
      = (inl (Retrieving tagID resourceGroup serviceName e), st3)
      ∧ kind_of (Retrieving tagID resourceGroup serviceName e)
        = RemoteCallFailed
  | None, None =>
      resourceApiManagementTagCreateUpdate client policyRead st
      = (inl (CannotReadID tagID resourceGroup serviceName), st3)
      ∧ kind_of (CannotReadID tagID resourceGroup serviceName) = EmptyIdentity
  | None, Some id =>
      ∃ st4, resourceApiManagementTagCreateUpdate client policyRead st
             = run_resourceApiManagementAPIPolicyRead policyRead st4
             ∧ d st4 = pluginsdk.SetId (d st1) id
             ∧ pluginsdk.Id (d st4) = id
             ∧ remote st4 = w3 ∧ calls st4 = calls st3
  end.
Proof.
  intros tagID resourceGroup serviceName displayName st3 Hreach Hcreate Hget.
  rewrite (CreateUpdate_from_create st st1 Hreach).
  subst tagID resourceGroup serviceName displayName st3.
  run. rewrite Hcreate. cbn [d remote calls]. rewrite Hget.
  cbn [d remote calls].
  destruct rerr as [e|]; [done|].
  destruct (apimanagement.ID resp) as [id|]; [|done].
  eexists {| d := pluginsdk.SetId (d st1) id; remote := w3; calls := _ |}.
  cbn [d remote calls]. repeat split; reflexivity.
Qed.

(** C8: with a handle that parses, a not-found answer of the remote get
    makes the read succeed with the handle dropped: afterwards the handle of
    the resource data is the empty string, its attributes and creation flag
    are as before, and no error is returned.  A not-found answer of the
    remote delete makes the delete succeed, so a delete after a successful
    delete succeeds as well; any other remote failure is returned as
    [RemoteCallFailed] with the resource data as it was. *)
Theorem Read_Delete_not_found (st : State) (id : parse.TagId) :
  let resourceGroup := parse.ResourceGroup id in
  let serviceName := ServiceName id in
  let tagID := parse.Name id in
  parse.TagID (pluginsdk.Id (d st)) = Ok id →
  (∀ resp e w,
     Get client resourceGroup serviceName tagID (remote st)
     = ((resp, Some e), w) →
     if utils.ResponseWasNotFound (apimanagement.Response resp)
     then resourceApiManagementTagRead client ServiceName st
          = (inr (),
             {| d := {| pluginsdk.Id := "";
                        pluginsdk.IsNewResource :=
                          pluginsdk.IsNewResource (d st);
                        pluginsdk.attributes := pluginsdk.attributes (d st) |};
                remote := w;
                calls := calls st
                         ++ [CallGet resourceGroup serviceName tagID] |})
          ∧ pluginsdk.Id
              (d (resourceApiManagementTagRead client ServiceName st).2) = ""
     else resourceApiManagementTagRead client ServiceName st
          = (inl (MakingReadRequest tagID serviceName resourceGroup e),
             called st w (CallGet resourceGroup serviceName tagID))
          ∧ kind_of (MakingReadRequest tagID serviceName resourceGroup e)
            = RemoteCallFailed)
  ∧ (∀ resp err w,
       Delete client resourceGroup serviceName tagID "" (remote st)
       = ((resp, err), w) →
       let st' := called st w (CallDelete resourceGroup serviceName tagID "") in
       match err with
       | None =>
           resourceApiManagementTagDelete client ServiceName st = (inr (), st')
       | Some e =>
           if utils.ResponseWasNotFound resp
           then resourceApiManagementTagDelete client ServiceName st
                = (inr (), st')
           else resourceApiManagementTagDelete client ServiceName st
                = (inl (Deleting tagID serviceName resourceGroup e), st')
                ∧ kind_of (Deleting tagID serviceName resourceGroup e)
                  = RemoteCallFailed
       end)
  ∧ (∀ resp1 w1 resp2 e2 w2,
       Delete client resourceGroup serviceName tagID "" (remote st)
       = ((resp1, None), w1) →
       Delete client resourceGroup serviceName tagID "" w1
       = ((resp2, Some e2), w2) →
       utils.ResponseWasNotFound resp2 = true →
       let st1 := called st w1 (CallDelete resourceGroup serviceName tagID "") in
       let st2 := called st1 w2 (CallDelete resourceGroup serviceName tagID "") in
       resourceApiManagementTagDelete client ServiceName st = (inr (), st1)
       ∧ resourceApiManagementTagDelete client ServiceName st1 = (inr (), st2)).
Proof.
  intros resourceGroup serviceName tagID Hparse.
  subst resourceGroup serviceName tagID. split; [|split].
  - intros resp e w Hget.
    destruct (utils.ResponseWasNotFound _) eqn:Hnf.
    + assert (resourceApiManagementTagRead client ServiceName st
              = (inr (),
                 {| d := {| pluginsdk.Id := "";
                            pluginsdk.IsNewResource :=
                              pluginsdk.IsNewResource (d st);
                            pluginsdk.attributes :=
                              pluginsdk.attributes (d st) |};
                    remote := w;
                    calls := calls st
                             ++ [CallGet (parse.ResourceGroup id)
                                   (ServiceName id) (parse.Name id)] |}))
        as Hread.
      { run. rewrite Hparse. run. rewrite Hget. run. by rewrite Hnf. }
      split; [exact Hread | by rewrite Hread].
    + split; [|done]. run. rewrite Hparse. run. rewrite Hget. run.
      by rewrite Hnf.
  - intros resp err w Hdel st'. subst st'.
    destruct err as [e|].
    + destruct (utils.ResponseWasNotFound resp) eqn:Hnf; [|split; [|done]];
        run; rewrite Hparse; run; rewrite Hdel; run; by rewrite Hnf.
    + run. rewrite Hparse. run. by rewrite Hdel.
  - intros resp1 w1 resp2 e2 w2 Hdel1 Hdel2 Hnf st1 st2. subst st1 st2.
    split.
    + run. rewrite Hparse. run. by rewrite Hdel1.
    + run. rewrite Hparse. run. rewrite Hdel2. run. by rewrite Hnf.
Qed.

(** C10: with a handle that does not parse, the read and the delete return
    the parse error as it is and leave the state as it was: no remote call
    is logged, the remote side is untouched, and the handle and attributes
    are unchanged. *)
Theorem Read_Delete_parse_failure (st : State) (msg : string) :
  parse.TagID (pluginsdk.Id (d st)) = Err msg →
  resourceApiManagementTagRead client ServiceName st = (inl (ParseError msg), st)
  ∧ resourceApiManagementTagDelete client ServiceName st = (inl (ParseError msg), st)
  ∧ kind_of (ParseError msg) = MalformedIdentifier.
Proof.
  intros Hparse. repeat split; run; by rewrite Hparse.
Qed.

End ResourceProperties.

(** ** The resource functions on the small remote side *)

Lemma CreateUpdate_create_guard_witness :
  resourceApiManagementTagCreateUpdate mock.client mock.policyRead
    (mock.new_resource (Some "Old"))
  = (inl (ImportAsExistsError "azurerm_api_management_tag" mock.tag_url),
     called (mock.new_resource (Some "Old")) (Some "Old")
            (CallGet "rg1" "svc1" "tag1"))
  ∧ ∃ res st',
      resourceApiManagementTagCreateUpdate mock.client mock.policyRead
        (mock.new_resource None) = (res, st')
      ∧ [CallGet "rg1" "svc1" "tag1";
         CallCreateOrUpdate "rg1" "svc1" "tag1" (parameters_of "Test Tag") ""]
        `prefix_of` calls st'.
Proof.
  split.
  - apply (CreateUpdate_create_guard mock.client mock.policyRead
             (mock.new_resource (Some "Old")) (mock.contract "Old") None
             (Some "Old") eq_refl eq_refl); [reflexivity..|discriminate].
  - apply (CreateUpdate_create_guard mock.client mock.policyRead
             (mock.new_resource None) mock.missing (Some "ResourceNotFound")
             None eq_refl eq_refl) with "ResourceNotFound"; reflexivity.
Defined.

Lemma CreateUpdate_confirming_read_witness :
  ∃ st4,
    resourceApiManagementTagCreateUpdate mock.client mock.policyRead
      (mock.existing_resource mock.tag_url (Some "Old"))
    = run_resourceApiManagementAPIPolicyRead mock.policyRead st4
    ∧ d st4 = pluginsdk.SetId (d (mock.existing_resource mock.tag_url (Some "Old")))
                              mock.tag_url
    ∧ pluginsdk.Id (d st4) = mock.tag_url
    ∧ remote st4 = Some "Test Tag"
    ∧ calls st4
      = [CallCreateOrUpdate "rg1" "svc1" "tag1" (parameters_of "Test Tag") "";
         CallGet "rg1" "svc1" "tag1"].
Proof.
  exact (CreateUpdate_confirming_read mock.client mock.policyRead
           (mock.existing_resource mock.tag_url (Some "Old"))
           (mock.existing_resource mock.tag_url (Some "Old"))
           (mock.contract "Test Tag") (mock.contract "Test Tag") None
           (Some "Test Tag") (Some "Test Tag")
           (reaches_update mock.client
              (mock.existing_resource mock.tag_url (Some "Old")) eq_refl)
           eq_refl eq_refl).
Defined.

Lemma Read_Delete_not_found_witness :
  (resourceApiManagementTagRead mock.client mock.ServiceName
     (mock.existing_resource mock.tag_url None)
   = (inr (),
      {| d := {| pluginsdk.Id := ""; pluginsdk.IsNewResource := false;
                 pluginsdk.attributes := mock.desired |};
         remote := None;
         calls := [CallGet "rg1" "svc1" "tag1"] |})
   ∧ pluginsdk.Id
       (d (resourceApiManagementTagRead mock.client mock.ServiceName
             (mock.existing_resource mock.tag_url None)).2) = "")
  ∧ resourceApiManagementTagDelete mock.client mock.ServiceName
      (mock.existing_resource mock.tag_url (Some "Old"))
    = (inr (), {| d := d (mock.existing_resource mock.tag_url (Some "Old"));
                  remote := None;
                  calls := [CallDelete "rg1" "svc1" "tag1" ""] |})
  ∧ resourceApiManagementTagDelete mock.client mock.ServiceName
      {| d := d (mock.existing_resource mock.tag_url (Some "Old"));
         remote := None;
         calls := [CallDelete "rg1" "svc1" "tag1" ""] |}
    = (inr (), {| d := d (mock.existing_resource mock.tag_url (Some "Old"));
                  remote := None;
                  calls := [CallDelete "rg1" "svc1" "tag1" "";
                            CallDelete "rg1" "svc1" "tag1" ""] |}).
Proof.
  split.
  - destruct (Read_Delete_not_found mock.client mock.ServiceName
                (mock.existing_resource mock.tag_url None)
                (parse.NewTagID "sub1" "rg1" "tag1") eq_refl)
      as (Hread & _ & _).
    exact (Hread mock.missing "ResourceNotFound" None eq_refl).
  - destruct (Read_Delete_not_found mock.client mock.ServiceName
                (mock.existing_resource mock.tag_url (Some "Old"))
                (parse.NewTagID "sub1" "rg1" "tag1") eq_refl)
      as (_ & _ & Htwice).
    exact (Htwice mock.ok None mock.not_found "ResourceNotFound" None
             eq_refl eq_refl eq_refl).
Defined.

Lemma Read_Delete_parse_failure_witness :
  let st := mock.existing_resource "tag1" (Some "Old") in
  let msg := "ID does not consist of alternating type/value segments" in
  resourceApiManagementTagRead mock.client mock.ServiceName st
  = (inl (ParseError msg), st)
  ∧ resourceApiManagementTagDelete mock.client mock.ServiceName st
    = (inl (ParseError msg), st)
  ∧ kind_of (ParseError msg) = MalformedIdentifier.
Proof.
  apply Read_Delete_parse_failure. reflexivity.
Defined.

(** * Further properties of the resource functions *)

Ltac run_resource :=
  unfold resourceApiManagementTagCreateUpdate, resourceApiManagementTagRead,
    resourceApiManagementTagDelete, create_and_confirm,
    run_resourceApiManagementAPIPolicyRead,
    client_Get, client_CreateOrUpdate, client_Delete, remote_call, get_d,
    modify_d, fail, mbind, M_bind, mret, M_ret, called, utils.String_;
  cbn [d remote calls].

Section ResourceFootprint.

Context {World : Type}.
Variable client : @TagClient World.
Variable ServiceName : parse.TagId → string.
Variable policyRead :
  pluginsdk.ResourceData → World
  → option error * pluginsdk.ResourceData * World * list Call.

(** X1: whatever the handle and the remote side, the delete function leaves
    the resource data as it was (it does not clear the handle), and it makes
    at most one remote call, a delete with an empty [ifMatch]. *)
Theorem Delete_keeps_resource_data (st : State) :
  let st' := (resourceApiManagementTagDelete client ServiceName st).2 in
  d st' = d st
  ∧ (calls st' = calls st
     ∨ ∃ resourceGroup serviceName tagID,
         calls st' = calls st ++ [CallDelete resourceGroup serviceName tagID ""]).
Proof.
  run_resource.
  destruct (parse.TagID (pluginsdk.Id (d st))) as [id|msg]; cbn [snd d calls].
  - destruct (Delete client _ _ _ _ (remote st)) as [[resp [e|]] w];
      cbn [d remote calls]; [destruct (utils.ResponseWasNotFound resp)|];
      cbn [negb snd d calls]; (split; [done | right; by eexists _, _, _]).
  - split; [done | by left].
Qed.

(** X2: the read function makes no call when the handle does not parse, and
    otherwise exactly one call: a get addressed by the resource group, the
    service name and the name of the parsed handle. *)
Theorem Read_calls (st : State) :
  let st' := (resourceApiManagementTagRead client ServiceName st).2 in
  match parse.TagID (pluginsdk.Id (d st)) with
  | Err _ => calls st' = calls st ∧ remote st' = remote st
  | Ok id =>
      calls st'
      = calls st ++ [CallGet (parse.ResourceGroup id) (ServiceName id)
                             (parse.Name id)]
      ∧ remote st'
        = (Get client (parse.ResourceGroup id) (ServiceName id)
             (parse.Name id) (remote st)).2
  end.
Proof.
  run_resource.
  destruct (parse.TagID (pluginsdk.Id (d st))) as [id|msg]; [|done].
  destruct (Get client _ _ _ (remote st)) as [[resp [e|]] w];
    cbn [d remote calls snd].
  - by destruct (utils.ResponseWasNotFound _).
  - by destruct (apimanagement.Properties resp).
Qed.

(** X3: when the handle parses and the remote get succeeds, the read
    function succeeds, keeps the handle, and stores the name, the service
    name and the resource group of the parsed handle as the attributes
    [tag_id], [api_management_name] and [resource_group_name]; the display
    name of the response is stored as [display_name], and when the response
    has no properties that attribute keeps its value. *)
Theorem Read_success (st : State) (id : parse.TagId)
    (resp : apimanagement.TagContract) (w : World) :
  parse.TagID (pluginsdk.Id (d st)) = Ok id →
  Get client (parse.ResourceGroup id) (ServiceName id) (parse.Name id)
    (remote st) = ((resp, None), w) →
  ∃ st', resourceApiManagementTagRead client ServiceName st = (inr (), st')
    ∧ pluginsdk.Id (d st') = pluginsdk.Id (d st)
    ∧ pluginsdk.Get (d st') "tag_id" = parse.Name id
    ∧ pluginsdk.Get (d st') "api_management_name" = ServiceName id
    ∧ pluginsdk.Get (d st') "resource_group_name" = parse.ResourceGroup id
    ∧ match apimanagement.Properties resp with
      | Some props =>
          ∀ name, apimanagement.DisplayName props = Some name →
                  pluginsdk.Get (d st') "display_name" = name
      | None =>
          pluginsdk.Get (d st') "display_name"
          = pluginsdk.Get (d st) "display_name"
      end.
Proof.
  intros Hparse Hget. run_resource. rewrite Hparse. run_resource.
  rewrite Hget. cbn [d remote calls].
  destruct (apimanagement.Properties resp) as [props|];
    eexists; (split; [reflexivity|]); cbn [d];
    unfold pluginsdk.Get, pluginsdk.Set_; cbn [pluginsdk.Id pluginsdk.attributes];
    repeat split; simplify_map_eq; try done.
  intros name Hname. by rewrite Hname.
Qed.

(** X4: the read function writes only attributes of the schema.  Whatever
    the outcome, an attribute that the schema of the resource does not
    declare keeps its value, and the creation flag is kept. *)
Theorem Read_writes_schema_attributes_only (st : State) (key : string) :
  plugin.Schema (resourceApiManagementTag client ServiceName policyRead)
    !! key = None →
  let st' := (resourceApiManagementTagRead client ServiceName st).2 in
  pluginsdk.attributes (d st') !! key = pluginsdk.attributes (d st) !! key
  ∧ pluginsdk.IsNewResource (d st') = pluginsdk.IsNewResource (d st).
Proof.
  cbn [plugin.Schema resourceApiManagementTag]. intros Hkey.
  assert (key ≠ "tag_id" ∧ key ≠ "resource_group_name"
          ∧ key ≠ "api_management_name" ∧ key ≠ "display_name")
    as (N1 & N2 & N3 & N4).
  { repeat split; intros ->; by simplify_map_eq. }
  run_resource.
  destruct (parse.TagID (pluginsdk.Id (d st))) as [id|msg]; [|done].
  destruct (Get client _ _ _ (remote st)) as [[resp [e|]] w];
    cbn [d remote calls snd].
  - by destruct (utils.ResponseWasNotFound _).
  - destruct (apimanagement.Properties resp) as [props|];
      cbn [snd d pluginsdk.Set_ pluginsdk.attributes pluginsdk.IsNewResource];
      by rewrite ?lookup_insert_ne by done.
Qed.

(** X5: the read function changes the handle in one way only: it clears it,
    and then it has succeeded (the remote get reported not-found). *)
Theorem Read_handle (st : State) :
  let r := resourceApiManagementTagRead client ServiceName st in
  pluginsdk.Id (d r.2) = pluginsdk.Id (d st)
  ∨ (pluginsdk.Id (d r.2) = "" ∧ r.1 = inr ()
     ∧ pluginsdk.attributes (d r.2) = pluginsdk.attributes (d st)).
Proof.
  run_resource.
  destruct (parse.TagID (pluginsdk.Id (d st))) as [id|msg]; [|by left].
  destruct (Get client _ _ _ (remote st)) as [[resp [e|]] w];
    cbn [d remote calls snd fst].
  - destruct (utils.ResponseWasNotFound _); [by right | by left].
  - left. by destruct (apimanagement.Properties resp).
Qed.

End ResourceFootprint.

Section CreateUpdateOutcomes.

Context {World : Type}.
Variable client : @TagClient World.
Variable ServiceName : parse.TagId → string.
Variable policyRead :
  pluginsdk.ResourceData → World
  → option error * pluginsdk.ResourceData * World * list Call.

(** X6: the decision table of the presence check of a first-time creation.
    A failure of the remote get other than not-found is returned; otherwise
    the identity of the response alone decides, whether the get failed with
    not-found or succeeded: a non-empty identity makes the function fail
    with the import error, no identity or an empty one lets it go on to the
    create call. *)
Theorem CreateUpdate_presence_check_table (st : State)
    (existing : apimanagement.TagContract) (err : option string) (w : World) :
  let tagID := pluginsdk.Get (d st) "tag_id" in
  let resourceGroup := pluginsdk.Get (d st) "resource_group_name" in
  let serviceName := pluginsdk.Get (d st) "api_management_name" in
  let displayName := pluginsdk.Get (d st) "display_name" in
  let st1 := called st w (CallGet resourceGroup serviceName tagID) in
  let goes_on :=
    ∃ res st',
      resourceApiManagementTagCreateUpdate client policyRead st = (res, st')
      ∧ calls st1 ++ [CallCreateOrUpdate resourceGroup serviceName tagID
                        (parameters_of displayName) ""]
        `prefix_of` calls st' in
  pluginsdk.IsNewResource (d st) = true →
  Get client resourceGroup serviceName tagID (remote st)
  = ((existing, err), w) →
  match err with
  | Some e =>
      if utils.ResponseWasNotFound (apimanagement.Response existing)
      then match apimanagement.ID existing with
           | Some id =>
               if String.eqb id "" then goes_on
               else resourceApiManagementTagCreateUpdate client policyRead st
                    = (inl (ImportAsExistsError "azurerm_api_management_tag" id),
                       st1)
           | None => goes_on
           end
      else resourceApiManagementTagCreateUpdate client policyRead st
           = (inl (CheckingPresence serviceName resourceGroup e), st1)
  | None =>
      match apimanagement.ID existing with
      | Some id =>
          if String.eqb id "" then goes_on
          else resourceApiManagementTagCreateUpdate client policyRead st
               = (inl (ImportAsExistsError "azurerm_api_management_tag" id),
                  st1)
      | None => goes_on
      end
  end.
Proof.
  intros tagID resourceGroup serviceName displayName st1 goes_on Hnew Hget.
  assert ((err = None
           ∨ utils.ResponseWasNotFound (apimanagement.Response existing) = true)
          → has_identity existing = false → goes_on) as Hgo.
  { intros Herr Hid. subst goes_on st1 tagID resourceGroup serviceName displayName.
    rewrite (CreateUpdate_from_create client policyRead st _
               (reaches_new client st existing err w Hnew Hget Herr Hid)).
    apply create_and_confirm_calls. }
  assert (∀ id, (err = None
           ∨ utils.ResponseWasNotFound (apimanagement.Response existing) = true)
          → apimanagement.ID existing = Some id → String.eqb id "" = false →
          resourceApiManagementTagCreateUpdate client policyRead st
          = (inl (ImportAsExistsError "azurerm_api_management_tag" id), st1))
    as Himport.
  { intros id Herr Hid Hne.
    subst st1 tagID resourceGroup serviceName displayName.
    assert (match err with
            | Some _ =>
                negb (utils.ResponseWasNotFound (apimanagement.Response existing))
            | None => false
            end = false) as Hpass.
    { destruct Herr as [-> | Hnf]; [done|]. destruct err; [by rewrite Hnf | done]. }
    run_resource. rewrite Hnew. run_resource. rewrite Hget. run_resource.
    destruct err as [e|]; [rewrite Hpass|];
      rewrite Hid; cbv beta iota; by rewrite Hne. }
  assert (match apimanagement.ID existing with
          | Some id => String.eqb id "" = true
          | None => True
          end → has_identity existing = false) as Hnone.
  { unfold has_identity. destruct (apimanagement.ID existing); [|done].
    by intros ->. }
  destruct err as [e|].
  - destruct (utils.ResponseWasNotFound _) eqn:Hnf.
    + destruct (apimanagement.ID existing) as [id|] eqn:Hid; [|by apply Hgo; auto].
      destruct (String.eqb id "") eqn:Hne; [apply Hgo | apply Himport]; auto.
    + subst st1 tagID resourceGroup serviceName displayName.
      run_resource. rewrite Hnew. run_resource. rewrite Hget. run_resource.
      by rewrite Hnf.
  - destruct (apimanagement.ID existing) as [id|] eqn:Hid; [|by apply Hgo; auto].
    destruct (String.eqb id "") eqn:Hne; [apply Hgo | apply Himport]; auto.
Qed.

(** X7: the registered update function run on a resource that is not new
    makes no presence check: its first call is the create call. *)
Theorem Update_skips_presence_check (st : State) :
  pluginsdk.IsNewResource (d st) = false →
  ∃ res st',
    plugin.Update (resourceApiManagementTag client ServiceName policyRead) st
    = (res, st')
    ∧ calls st
      ++ [CallCreateOrUpdate (pluginsdk.Get (d st) "resource_group_name")
            (pluginsdk.Get (d st) "api_management_name")
            (pluginsdk.Get (d st) "tag_id")
            (parameters_of (pluginsdk.Get (d st) "display_name")) ""]
      `prefix_of` calls st'.
Proof.
  intros Hupdate. cbn [plugin.Update resourceApiManagementTag].
  rewrite (CreateUpdate_from_create client policyRead st st
             (reaches_update client st Hupdate)).
  apply create_and_confirm_calls.
Qed.

(** X8: when the create call fails, the function returns that failure as
    [RemoteCallFailed] at once: the resource is not read again and the
    resource data is left as it was. *)
Theorem CreateUpdate_create_failure (st st1 : State)
    (created : apimanagement.TagContract) (e : string) (w2 : World) :
  let tagID := pluginsdk.Get (d st) "tag_id" in
  let resourceGroup := pluginsdk.Get (d st) "resource_group_name" in
  let serviceName := pluginsdk.Get (d st) "api_management_name" in
  let displayName := pluginsdk.Get (d st) "display_name" in
  reaches_create client st st1 →
  CreateOrUpdate client resourceGroup serviceName tagID
    (parameters_of displayName) "" (remote st1) = ((created, Some e), w2) →
  resourceApiManagementTagCreateUpdate client policyRead st
  = (inl (CreatingOrUpdating tagID resourceGroup serviceName e),
     {| d := d st; remote := w2;
        calls := calls st1
                 ++ [CallCreateOrUpdate resourceGroup serviceName tagID
                       (parameters_of displayName) ""] |})
  ∧ kind_of (CreatingOrUpdating tagID resourceGroup serviceName e)
    = RemoteCallFailed.
Proof.
  intros tagID resourceGroup serviceName displayName Hreach Hcreate.
  rewrite (CreateUpdate_from_create client policyRead st st1 Hreach).
  assert (d st1 = d st) as Hd by (by destruct Hreach).
  subst tagID resourceGroup serviceName displayName.
  run_resource. rewrite Hcreate. cbn [d remote calls]. by rewrite Hd.
Qed.

(** The presence check either fails, with the state after the get, or
    hands that state on to the create call. *)
Lemma presence_check_outcome (st : State)
    (existing : apimanagement.TagContract) (err : option string) (w : World) :
  let get := CallGet (pluginsdk.Get (d st) "resource_group_name")
               (pluginsdk.Get (d st) "api_management_name")
               (pluginsdk.Get (d st) "tag_id") in
  pluginsdk.IsNewResource (d st) = true →
  Get client (pluginsdk.Get (d st) "resource_group_name")
    (pluginsdk.Get (d st) "api_management_name")
    (pluginsdk.Get (d st) "tag_id") (remote st) = ((existing, err), w) →
  (∃ e, resourceApiManagementTagCreateUpdate client policyRead st
        = (inl e, called st w get)
        ∧ (kind_of e = AlreadyExists ∨ kind_of e = RemoteCallFailed))
  ∨ reaches_create client st (called st w get).
Proof.
  intros get Hnew Hget. subst get.
  destruct (has_identity existing) eqn:Hid.
  - destruct (match err with
              | Some _ =>
                  negb (utils.ResponseWasNotFound (apimanagement.Response existing))
              | None => false
              end) eqn:Hfail; left.
    + destruct err as [e|]; [|done].
      exists (CheckingPresence (pluginsdk.Get (d st) "api_management_name")
                (pluginsdk.Get (d st) "resource_group_name") e).
      split; [|by right]. run_resource. rewrite Hnew. run_resource.
      rewrite Hget. run_resource. by rewrite Hfail.
    + unfold has_identity in Hid.
      destruct (apimanagement.ID existing) as [id|] eqn:Hident; [|done].
      exists (ImportAsExistsError "azurerm_api_management_tag" id).
      split; [|by left]. run_resource. rewrite Hnew. run_resource.
      rewrite Hget. run_resource.
      destruct err as [e|]; [rewrite Hfail|];
        rewrite Hident; cbv beta iota; by rewrite Hid.
  - destruct err as [e|]; [|right; by eapply reaches_new; eauto].
    destruct (utils.ResponseWasNotFound (apimanagement.Response existing))
      eqn:Hnf; [right; by eapply reaches_new; eauto|].
    left. exists (CheckingPresence (pluginsdk.Get (d st) "api_management_name")
                    (pluginsdk.Get (d st) "resource_group_name") e).
    split; [|by right]. run_resource. rewrite Hnew. run_resource.
    rewrite Hget. run_resource. by rewrite Hnf.
Qed.

(** From the create call on: the failures leave the resource data alone;
    the handle is set once the create call and the get after it succeeded. *)
Lemma create_and_confirm_outcomes
    (tagID resourceGroup serviceName displayName : string) (st1 : State) :
  let create := CallCreateOrUpdate resourceGroup serviceName tagID
                  (parameters_of displayName) "" in
  let get := CallGet resourceGroup serviceName tagID in
  (∃ e w cs,
     create_and_confirm client policyRead tagID resourceGroup serviceName
       displayName st1
     = (inl e, {| d := d st1; remote := w; calls := calls st1 ++ cs |})
     ∧ (cs = [create] ∨ cs = [create; get])
     ∧ (kind_of e = RemoteCallFailed ∨ kind_of e = EmptyIdentity))
  ∨ (∃ id w,
       create_and_confirm client policyRead tagID resourceGroup serviceName
         displayName st1
       = run_resourceApiManagementAPIPolicyRead policyRead
           {| d := pluginsdk.SetId (d st1) id; remote := w;
              calls := calls st1 ++ [create; get] |}).
Proof.
  intros create get. subst create get. run_resource.
  destruct (CreateOrUpdate client resourceGroup serviceName tagID
              (parameters_of displayName) "" (remote st1))
    as [[created [cerr|]] w2]; cbn [d remote calls].
  { left. eexists _, _, _. split; [reflexivity|]. split; by left. }
  destruct (Get client resourceGroup serviceName tagID w2)
    as [[resp [rerr|]] w3]; cbn [d remote calls].
  { left. eexists _, _, [_; _]. rewrite <- (assoc_L (++)).
    split; [reflexivity|]. split; [by right | by left]. }
  destruct (apimanagement.ID resp) as [id|]; cbn [d remote calls].
  - right. exists id, w3. by rewrite <- (assoc_L (++)).
  - left. eexists _, _, [_; _]. rewrite <- (assoc_L (++)).
    split; [reflexivity|]. split; by right.
Qed.

(** X9: the outcomes of the create-or-update function.  Before its trailing
    read it makes at most three remote calls, each a get or the create call
    for the tag the resource data names, and never a delete.  Either it
    fails with [AlreadyExists], [RemoteCallFailed] or [EmptyIdentity] and
    the resource data is as it was, or the create call and the get after it
    were its last two calls and it ends with the trailing read, run on the
    resource data with only the handle replaced. *)
Theorem CreateUpdate_outcomes (st : State) :
  let create := CallCreateOrUpdate (pluginsdk.Get (d st) "resource_group_name")
                  (pluginsdk.Get (d st) "api_management_name")
                  (pluginsdk.Get (d st) "tag_id")
                  (parameters_of (pluginsdk.Get (d st) "display_name")) "" in
  let get := CallGet (pluginsdk.Get (d st) "resource_group_name")
               (pluginsdk.Get (d st) "api_management_name")
               (pluginsdk.Get (d st) "tag_id") in
  ∃ cs w,
    Forall (own_call (d st)) cs ∧ length cs ≤ 3
    ∧ Forall (λ c, is_delete c = false) cs
    ∧ ((∃ e, resourceApiManagementTagCreateUpdate client policyRead st
             = (inl e, {| d := d st; remote := w; calls := calls st ++ cs |})
             ∧ (kind_of e = AlreadyExists ∨ kind_of e = RemoteCallFailed
                ∨ kind_of e = EmptyIdentity))
       ∨ (∃ id pre,
            resourceApiManagementTagCreateUpdate client policyRead st
            = run_resourceApiManagementAPIPolicyRead policyRead
                {| d := pluginsdk.SetId (d st) id; remote := w;
                   calls := calls st ++ cs |}
            ∧ cs = pre ++ [create; get])).
Proof.
  intros create get.
  assert (own_call (d st) create) as Hcreate by (by right).
  assert (own_call (d st) get) as Hget by (by left).
  assert (∀ st1 pre,
    reaches_create client st st1 → calls st1 = calls st ++ pre →
    Forall (own_call (d st)) pre → Forall (λ c, is_delete c = false) pre →
    length pre ≤ 1 →
    ∃ cs w,
      Forall (own_call (d st)) cs ∧ length cs ≤ 3
      ∧ Forall (λ c, is_delete c = false) cs
      ∧ ((∃ e, resourceApiManagementTagCreateUpdate client policyRead st
               = (inl e, {| d := d st; remote := w; calls := calls st ++ cs |})
               ∧ (kind_of e = AlreadyExists ∨ kind_of e = RemoteCallFailed
                  ∨ kind_of e = EmptyIdentity))
         ∨ (∃ id pre,
              resourceApiManagementTagCreateUpdate client policyRead st
              = run_resourceApiManagementAPIPolicyRead policyRead
                  {| d := pluginsdk.SetId (d st) id; remote := w;
                     calls := calls st ++ cs |}
              ∧ cs = pre ++ [create; get]))) as Htail.
  { intros st1 pre Hreach Hcalls Hown Hnodel Hlen.
    assert (d st1 = d st) as Hd by (by destruct Hreach).
    rewrite (CreateUpdate_from_create client policyRead st st1 Hreach).
    destruct (create_and_confirm_outcomes
                (pluginsdk.Get (d st) "tag_id")
                (pluginsdk.Get (d st) "resource_group_name")
                (pluginsdk.Get (d st) "api_management_name")
                (pluginsdk.Get (d st) "display_name") st1)
      as [(e & w & cs & -> & Hcs & Hkind) | (id & w & ->)];
      rewrite Hd, Hcalls, <- (assoc_L (++)).
    - exists (pre ++ cs), w.
      assert (Forall (own_call (d st)) cs ∧ length cs ≤ 2
              ∧ Forall (λ c, is_delete c = false) cs) as (Hcs1 & Hcs2 & Hcs3).
      { destruct Hcs as [-> | ->]; cbn [length];
          repeat split; repeat constructor; done || lia. }
      split; [by apply Forall_app|]. split; [rewrite length_app; lia|].
      split; [by apply Forall_app|]. left. exists e. split; [done|].
      destruct Hkind; auto.
    - exists (pre ++ [create; get]), w.
      split; [apply Forall_app; split; [done | by repeat constructor]|].
      split; [rewrite length_app; cbn [length]; lia|].
      split; [apply Forall_app; split; [done | by repeat constructor]|].
      right. by exists id, pre. }
  destruct (pluginsdk.IsNewResource (d st)) eqn:Hnew.
  - destruct (Get client (pluginsdk.Get (d st) "resource_group_name")
                (pluginsdk.Get (d st) "api_management_name")
                (pluginsdk.Get (d st) "tag_id") (remote st))
      as [[existing err] w] eqn:Hremote.
    assert (Forall (own_call (d st)) [get] ∧ length [get] ≤ 3
            ∧ Forall (λ c, is_delete c = false) [get]) as (Hg1 & Hg2 & Hg3).
    { repeat split; repeat constructor; done || (cbn; lia). }
    destruct (presence_check_outcome st existing err w Hnew Hremote)
      as [(e & Hfail & Hkind) | Hreach].
    + exists [get], w. repeat split; [done..|]. left. exists e.
      split; [exact Hfail | destruct Hkind; auto].
    + apply (Htail (called st w get) [get]); done.
  - apply (Htail st []); [by apply reaches_update | by rewrite app_nil_r | ..];
      (done || cbn; lia).
Qed.

End CreateUpdateOutcomes.

(** * Further properties of the codec *)

Lemma Split_slash_free_all (s : string) :
  Forall (λ piece, strings.slash_free piece = true) (strings.Split s).
Proof.
  induction s as [|x s IH]; [by repeat constructor|].
  cbn [strings.Split]. destruct (Ascii.eqb x strings.slash) eqn:Hx.
  - by constructor.
  - destruct (strings.Split s) as [|piece pieces].
    + constructor; [|done]. cbn [strings.slash_free]. by rewrite Hx.
    + inversion IH as [|? ? Hpiece Hpieces]; subst. constructor; [|done].
      cbn [strings.slash_free]. by rewrite Hx, Hpiece.
Qed.

Lemma pair_up_values (l : list string) (kvs : list (string * string))
    (P : string → Prop) :
  Forall P l → azure.pair_up l = Some kvs → Forall (λ kv, P kv.2) kvs.
Proof.
  revert kvs. induction l as [|k|k v rest IH] using list_pair_ind;
    intros kvs Hall Hpairs; cbn [azure.pair_up] in Hpairs.
  - by injection Hpairs as <-.
  - done.
  - destruct (azure.pair_up rest) as [kvs'|]; [|done].
    injection Hpairs as <-.
    inversion Hall as [|? ? _ Hall']; subst.
    inversion Hall' as [|? ? Hv Hrest]; subst.
    constructor; [done | by apply IH].
Qed.

Lemma segment_value_elem (key v : string) (kvs : list (string * string)) :
  segments.segment_value key kvs = Some v → ∃ k, (k, v) ∈ kvs.
Proof.
  induction kvs as [|[k' v'] rest IH]; [done|]. cbn [segments.segment_value].
  destruct (segments.segment_value key rest) as [v''|].
  - intros [= ->]. destruct IH as [k Hk]; [done|]. exists k. by right.
  - case_decide; [|done]. intros [= <-]. exists k'. by left.
Qed.

Lemma segment_value_slash_free (input key v : string)
    (kvs : list (string * string)) :
  azure.segment_pairs input = Some kvs →
  segments.segment_value key kvs = Some v →
  strings.slash_free v = true.
Proof.
  intros Hpairs [k Hk]%segment_value_elem.
  pose proof (pair_up_values _ _ _ (Split_slash_free_all _) Hpairs) as Hall.
  rewrite Forall_forall in Hall. exact (Hall _ Hk).
Qed.

(** What a successful parse says about the segment pairs of its input. *)
Lemma TagID_Ok_segments (input : string) (id : parse.TagId) :
  parse.TagID input = Ok id →
  ∃ kvs, azure.segment_pairs input = Some kvs
    ∧ segments.segment_value "subscriptions" kvs = Some (parse.SubscriptionId id)
    ∧ segments.segment_value "resourcegroups" kvs = Some (parse.ResourceGroup id)
    ∧ segments.segment_value "tags" kvs = Some (parse.Name id)
    ∧ parse.SubscriptionId id ≠ "" ∧ parse.ResourceGroup id ≠ "".
Proof.
  intros Hok. destruct (azure.segment_pairs input) as [kvs|] eqn:Hpairs;
    [|by rewrite (TagID_unpaired _ Hpairs) in Hok].
  exists kvs. split; [done|]. rewrite (TagID_pairs _ _ Hpairs) in Hok.
  unfold segments.TagID_by_segments in Hok.
  destruct (segments.segment_value "subscriptions" kvs) as [sub|];
    cbn [default] in Hok; [|done].
  destruct (segments.segment_value "resourcegroups" kvs) as [rg|];
    cbn [default] in Hok; [|by case_decide].
  destruct (segments.segment_value "tags" kvs) as [name|];
    [|by repeat case_decide].
  repeat case_decide; try done.
  destruct (segments.unexpected_keys kvs); [|done].
  by injection Hok as <-.
Qed.

(** X10: no field of an identity returned by the parser holds the path
    separator. *)
Theorem TagID_Ok_fields_separator_free (input : string) (id : parse.TagId) :
  parse.TagID input = Ok id →
  strings.slash_free (parse.SubscriptionId id) = true
  ∧ strings.slash_free (parse.ResourceGroup id) = true
  ∧ strings.slash_free (parse.Name id) = true.
Proof.
  intros (kvs & Hpairs & Hsub & Hrg & Hname & _)%TagID_Ok_segments.
  repeat split; by eapply (segment_value_slash_free input).
Qed.

Lemma TagID_Ok_fields_separator_free_witness :
  strings.slash_free "sub1" = true ∧ strings.slash_free "rg1" = true
  ∧ strings.slash_free "tag1" = true.
Proof.
  apply (TagID_Ok_fields_separator_free mock.tag_url
           (parse.NewTagID "sub1" "rg1" "tag1")).
  reflexivity.
Defined.

(** X11: rendering normalises.  Whatever input the parser accepts, the
    identity it returns renders to a string that the parser accepts as the
    same identity. *)
Theorem TagID_ID_TagID (input : string) (id : parse.TagId) :
  parse.TagID input = Ok id →
  parse.TagID (parse.ID id) = Ok id.
Proof.
  intros Hok.
  destruct (TagID_Ok_segments _ _ Hok)
    as (kvs & Hpairs & Hsub & Hrg & Hname & Nsub & Nrg).
  pose proof (segment_value_slash_free _ _ _ _ Hpairs Hsub) as Fsub.
  pose proof (segment_value_slash_free _ _ _ _ Hpairs Hrg) as Frg.
  pose proof (segment_value_slash_free _ _ _ _ Hpairs Hname) as Fname.
  rewrite (TagID_pairs _ _ (segment_pairs_ID id Fsub Frg Fname)).
  destruct id as [sub rg name].
  cbn [parse.SubscriptionId parse.ResourceGroup parse.Name] in *.
  by apply TagID_by_segments_rendered.
Qed.

Lemma TagID_ID_TagID_witness :
  parse.TagID (parse.ID (parse.NewTagID "sub1" "rg1" "Tag1"))
  = Ok (parse.NewTagID "sub1" "rg1" "Tag1").
Proof.
  apply (TagID_ID_TagID
    "/SUBSCRIPTIONS/sub1/resourcegroups/rg1/tags/Tag1/Providers/Microsoft.Web").
  reflexivity.
Defined.

(** X12: rendering is injective on identities whose fields are free of the
    path separator: two of them with the same rendered string are equal. *)
Theorem ID_injective (id1 id2 : parse.TagId) :
  strings.slash_free (parse.SubscriptionId id1) = true →
  strings.slash_free (parse.ResourceGroup id1) = true →
  strings.slash_free (parse.Name id1) = true →
  strings.slash_free (parse.SubscriptionId id2) = true →
  strings.slash_free (parse.ResourceGroup id2) = true →
  strings.slash_free (parse.Name id2) = true →
  parse.ID id1 = parse.ID id2 →
  id1 = id2.
Proof.
  intros Fsub1 Frg1 Fname1 Fsub2 Frg2 Fname2 Heq.
  pose proof (segment_pairs_ID id1 Fsub1 Frg1 Fname1) as H1.
  pose proof (segment_pairs_ID id2 Fsub2 Frg2 Fname2) as H2.
  rewrite Heq, H2 in H1. destruct id1, id2.
  cbn [parse.SubscriptionId parse.ResourceGroup parse.Name] in H1.
  by injection H1 as <- <- <-.
Qed.

Lemma ID_injective_witness :
  parse.NewTagID "sub1" "rg1" "tag1" = parse.NewTagID "sub1" "rg1" "tag1".
Proof. apply ID_injective; reflexivity. Defined.

(** Without that condition rendering is not injective. *)
Example ID_collision :
  parse.ID (parse.NewTagID "a/resourceGroups/b" "c" "t")
  = parse.ID (parse.NewTagID "a" "b/resourceGroups/c" "t").
Proof. reflexivity. Qed.

(** The segment pairs of a handle with some provider namespace. *)
Lemma segment_pairs_provider_tag_handle (sub rg provider name : string) :
  strings.slash_free sub = true → strings.slash_free rg = true →
  strings.slash_free provider = true → strings.slash_free name = true →
  azure.segment_pairs (provider_tag_handle sub rg provider name)
  = Some [("subscriptions", sub); ("resourceGroups", rg);
          ("providers", provider); ("tags", name)].
Proof.
  intros Hsub Hrg Hprovider Hname. unfold azure.segment_pairs.
  change (strings.TrimPrefix (provider_tag_handle sub rg provider name))
    with (strings.Join ["subscriptions"; sub; "resourceGroups"; rg;
                        "providers"; provider; "tags"; name]).
  rewrite Split_Join; [reflexivity | done |].
  cbn [forallb]. rewrite Hsub, Hrg, Hprovider, Hname. reflexivity.
Qed.

(** X13: the parser does not look at the provider namespace: a handle
    [/subscriptions/S/resourceGroups/R/providers/P/tags/N] is accepted for
    every provider [P], as the identity of [S], [R] and [N]. *)
Theorem TagID_any_provider (sub rg provider name : string) :
  segments.valid_field sub = true →
  segments.valid_field rg = true →
  strings.slash_free provider = true →
  strings.slash_free name = true →
  parse.TagID (provider_tag_handle sub rg provider name)
  = Ok (parse.NewTagID sub rg name).
Proof.
  intros [Nsub Fsub]%valid_field_spec [Nrg Frg]%valid_field_spec Fprovider Fname.
  rewrite (TagID_pairs _ _
             (segment_pairs_provider_tag_handle _ _ _ _ Fsub Frg Fprovider Fname)).
  unfold segments.TagID_by_segments.
  set (kvs := [("subscriptions", sub); _; _; _]).
  assert (segments.segment_value "subscriptions" kvs = Some sub) as ->
    by reflexivity.
  assert (segments.segment_value "resourcegroups" kvs = Some rg) as ->
    by reflexivity.
  assert (segments.segment_value "tags" kvs = Some name) as -> by reflexivity.
  assert (segments.unexpected_keys kvs = []) as -> by reflexivity.
  cbn [default]. by rewrite !decide_False by done.
Qed.

Lemma TagID_any_provider_witness :
  parse.TagID (provider_tag_handle "sub1" "rg1" "Microsoft.ApiManagement" "tag1")
  = Ok (parse.NewTagID "sub1" "rg1" "tag1").
Proof. apply TagID_any_provider; reflexivity. Defined.

(** * Handles of the remote service, the read functions and the existence check *)

(** The segment pairs of a handle with a parent service segment. *)
Lemma segment_pairs_service_tag_handle (sub rg svc name : string) :
  strings.slash_free sub = true → strings.slash_free rg = true →
  strings.slash_free svc = true → strings.slash_free name = true →
  azure.segment_pairs (service_tag_handle sub rg svc name)
  = Some [("subscriptions", sub); ("resourceGroups", rg);
          ("providers", "Microsoft.ApiManagement");
          ("service", svc); ("tags", name)].
Proof.
  intros Hsub Hrg Hsvc Hname. unfold azure.segment_pairs.
  change (strings.TrimPrefix (service_tag_handle sub rg svc name))
    with (strings.Join ["subscriptions"; sub; "resourceGroups"; rg;
                        "providers"; "Microsoft.ApiManagement";
                        "service"; svc; "tags"; name]).
  rewrite Split_Join; [reflexivity | done |].
  cbn [forallb]. rewrite Hsub, Hrg, Hsvc, Hname. reflexivity.
Qed.

Section ServiceHandles.

Context {World : Type}.
Variable client : @TagClient World.
Variable ServiceName : parse.TagId → string.

(** X14: a handle of the shape the service gives its tags,
    [/subscriptions/S/resourceGroups/R/providers/Microsoft.ApiManagement/service/V/tags/N],
    is rejected by the parser because of its [service] segment; the read and
    the delete function return that error without a remote call and leave
    the state as it was. *)
Theorem Read_Delete_reject_service_handle (st : State)
    (sub rg svc name : string) :
  segments.valid_field sub = true →
  segments.valid_field rg = true →
  strings.slash_free svc = true →
  strings.slash_free name = true →
  pluginsdk.Id (d st) = service_tag_handle sub rg svc name →
  parse.TagID (service_tag_handle sub rg svc name)
  = Err "ID contained an unexpected segment: service"
  ∧ resourceApiManagementTagRead client ServiceName st
    = (inl (ParseError "ID contained an unexpected segment: service"), st)
  ∧ resourceApiManagementTagDelete client ServiceName st
    = (inl (ParseError "ID contained an unexpected segment: service"), st).
Proof.
  intros [Nsub Fsub]%valid_field_spec [Nrg Frg]%valid_field_spec Fsvc Fname Hid.
  assert (parse.TagID (service_tag_handle sub rg svc name)
          = Err "ID contained an unexpected segment: service") as Herr.
  { rewrite (TagID_pairs _ _
               (segment_pairs_service_tag_handle _ _ _ _ Fsub Frg Fsvc Fname)).
    unfold segments.TagID_by_segments.
    set (kvs := [("subscriptions", sub); _; _; _; _]).
    assert (segments.segment_value "subscriptions" kvs = Some sub) as ->
      by reflexivity.
    assert (segments.segment_value "resourcegroups" kvs = Some rg) as ->
      by reflexivity.
    assert (segments.segment_value "tags" kvs = Some name) as -> by reflexivity.
    assert (segments.unexpected_keys kvs = ["service"]) as -> by reflexivity.
    cbn [default]. by rewrite !decide_False by done. }
  split; [done|].
  split; run_resource; by rewrite Hid, Herr.
Qed.

(** X15: the existence check answers only after a get that succeeded, and
    then says whether the response carries an ID.  Every failed get, a
    not-found one included, makes it fail, as does a state ID that does not
    split into segment pairs, and then without a call. *)
Theorem Exists_answer (stateID : string) (w w' : World) (answer : bool)
    (cs : list Call) :
  ApiManagementTagResource.Exists client stateID w = (inr answer, w', cs) →
  ∃ id resp,
    azure.ParseAzureResourceID stateID = Ok id
    ∧ Get client (azure.ResourceGroup id)
        (default "" (azure.Path id !! "service"))
        (default "" (azure.Path id !! "tags")) w = ((resp, None), w')
    ∧ answer = match apimanagement.ID resp with
               | Some _ => true
               | None => false
               end
    ∧ cs = [CallGet (azure.ResourceGroup id)
              (default "" (azure.Path id !! "service"))
              (default "" (azure.Path id !! "tags"))].
Proof.
  unfold ApiManagementTagResource.Exists.
  destruct (azure.ParseAzureResourceID stateID) as [id|msg]; [|done].
  destruct (Get client _ _ _ w) as [[resp [e|]] w0] eqn:Hget; [done|].
  intros [= <- <- <-]. by exists id, resp.
Qed.

(** X16: whom the existence check asks for.  For a handle with a [service]
    segment it asks for the tag of that service in the resource group of the
    handle; for a string rendered by [TagId.ID], which has no such segment,
    it asks with an empty service name. *)
Theorem Exists_addressing (sub rg svc name : string) (w : World) :
  strings.slash_free sub = true → strings.slash_free rg = true →
  strings.slash_free svc = true → strings.slash_free name = true →
  (ApiManagementTagResource.Exists client
     (service_tag_handle sub rg svc name) w).2 = [CallGet rg svc name]
  ∧ (ApiManagementTagResource.Exists client
       (parse.ID (parse.NewTagID sub rg name)) w).2 = [CallGet rg "" name].
Proof.
  intros Fsub Frg Fsvc Fname.
  unfold ApiManagementTagResource.Exists, azure.ParseAzureResourceID. split.
  - rewrite (segment_pairs_service_tag_handle _ _ _ _ Fsub Frg Fsvc Fname).
    cbn [azure.ResourceGroup azure.Path].
    rewrite !lookup_delete_ne by done. rewrite !componentMap_lookup.
    set (kvs := [("subscriptions", sub); _; _; _; _]).
    assert (segments.segment_value "resourcegroups" kvs = Some rg) as ->
      by reflexivity.
    assert (segments.segment_value "service" kvs = Some svc) as ->
      by reflexivity.
    assert (segments.segment_value "tags" kvs = Some name) as -> by reflexivity.
    cbn [from_option id].
    by destruct (Get client rg svc name w) as [[resp [e|]] w'].
  - rewrite (segment_pairs_ID (parse.NewTagID sub rg name) Fsub Frg Fname).
    cbn [azure.ResourceGroup azure.Path parse.SubscriptionId
         parse.ResourceGroup parse.Name parse.NewTagID].
    rewrite !lookup_delete_ne by done. rewrite !componentMap_lookup.
    set (kvs := [("subscriptions", sub); _; _; _]).
    assert (segments.segment_value "resourcegroups" kvs = Some rg) as ->
      by reflexivity.
    assert (segments.segment_value "service" kvs = None) as -> by reflexivity.
    assert (segments.segment_value "tags" kvs = Some name) as -> by reflexivity.
    cbn [from_option id].
    by destruct (Get client rg "" name w) as [[resp [e|]] w'].
Qed.

End ServiceHandles.

(** * The further properties on the small remote sides *)

Lemma Read_success_witness :
  ∃ st',
    resourceApiManagementTagRead mock.client mock.ServiceName
      (mock.existing_resource mock.tag_url (Some "Old")) = (inr (), st')
    ∧ pluginsdk.Id (d st') = mock.tag_url
    ∧ pluginsdk.Get (d st') "tag_id" = "tag1"
    ∧ pluginsdk.Get (d st') "api_management_name" = "svc1"
    ∧ pluginsdk.Get (d st') "resource_group_name" = "rg1"
    ∧ ∀ name, Some "Old" = Some name →
              pluginsdk.Get (d st') "display_name" = name.
Proof.
  exact (Read_success mock.client mock.ServiceName
           (mock.existing_resource mock.tag_url (Some "Old"))
           (parse.NewTagID "sub1" "rg1" "tag1") (mock.contract "Old")
           (Some "Old") eq_refl eq_refl).
Defined.

Lemma Read_writes_schema_attributes_only_witness :
  let st := mock.existing_resource mock.tag_url (Some "Old") in
  let st' := (resourceApiManagementTagRead mock.client mock.ServiceName st).2 in
  pluginsdk.attributes (d st') !! "location"
  = pluginsdk.attributes (d st) !! "location"
  ∧ pluginsdk.IsNewResource (d st') = pluginsdk.IsNewResource (d st).
Proof.
  apply (Read_writes_schema_attributes_only mock.client mock.ServiceName
           mock.policyRead).
  reflexivity.
Defined.

Lemma CreateUpdate_presence_check_table_witness :
  resourceApiManagementTagCreateUpdate mock.client mock.policyRead
    (mock.new_resource (Some "Old"))
  = (inl (ImportAsExistsError "azurerm_api_management_tag" mock.tag_url),
     called (mock.new_resource (Some "Old")) (Some "Old")
            (CallGet "rg1" "svc1" "tag1")).
Proof.
  exact (CreateUpdate_presence_check_table mock.client mock.policyRead
           (mock.new_resource (Some "Old")) (mock.contract "Old") None
           (Some "Old") eq_refl eq_refl).
Defined.

Lemma Update_skips_presence_check_witness :
  ∃ res st',
    plugin.Update
      (resourceApiManagementTag mock.client mock.ServiceName mock.policyRead)
      (mock.existing_resource mock.tag_url (Some "Old")) = (res, st')
    ∧ [CallCreateOrUpdate "rg1" "svc1" "tag1" (parameters_of "Test Tag") ""]
      `prefix_of` calls st'.
Proof.
  apply (Update_skips_presence_check mock.client mock.ServiceName
           mock.policyRead (mock.existing_resource mock.tag_url (Some "Old"))).
  reflexivity.
Defined.

Lemma CreateUpdate_create_failure_witness :
  resourceApiManagementTagCreateUpdate failing.client failing.policyRead
    failing.existing_resource
  = (inl (CreatingOrUpdating "tag1" "rg1" "svc1" "InternalServerError"),
     {| d := d failing.existing_resource; remote := ();
        calls := [CallCreateOrUpdate "rg1" "svc1" "tag1"
                    (parameters_of "Test Tag") ""] |})
  ∧ kind_of (CreatingOrUpdating "tag1" "rg1" "svc1" "InternalServerError")
    = RemoteCallFailed.
Proof.
  exact (CreateUpdate_create_failure failing.client failing.policyRead
           failing.existing_resource failing.existing_resource
           failing.no_contract "InternalServerError" ()
           (reaches_update failing.client failing.existing_resource eq_refl)
           eq_refl).
Defined.

Lemma Read_Delete_reject_service_handle_witness :
  let st := mock.existing_resource
              (service_tag_handle "sub1" "rg1" "svc1" "tag1") (Some "Old") in
  parse.TagID (service_tag_handle "sub1" "rg1" "svc1" "tag1")
  = Err "ID contained an unexpected segment: service"
  ∧ resourceApiManagementTagRead mock.client mock.ServiceName st
    = (inl (ParseError "ID contained an unexpected segment: service"), st)
  ∧ resourceApiManagementTagDelete mock.client mock.ServiceName st
    = (inl (ParseError "ID contained an unexpected segment: service"), st).
Proof.
  apply (Read_Delete_reject_service_handle mock.client mock.ServiceName);
    reflexivity.
Defined.

Lemma Exists_answer_witness :
  ∃ id resp,
    azure.ParseAzureResourceID
      (service_tag_handle "sub1" "rg1" "svc1" "tag1") = Ok id
    ∧ Get mock.client (azure.ResourceGroup id)
        (default "" (azure.Path id !! "service"))
        (default "" (azure.Path id !! "tags")) (Some "Old")
      = ((resp, None), Some "Old")
    ∧ true = match apimanagement.ID resp with
             | Some _ => true
             | None => false
             end
    ∧ [CallGet "rg1" "svc1" "tag1"]
      = [CallGet (azure.ResourceGroup id)
           (default "" (azure.Path id !! "service"))
           (default "" (azure.Path id !! "tags"))].
Proof.
  apply (Exists_answer mock.client
           (service_tag_handle "sub1" "rg1" "svc1" "tag1")
           (Some "Old") (Some "Old") true [CallGet "rg1" "svc1" "tag1"]).
  reflexivity.
Defined.

Lemma Exists_addressing_witness :
  (ApiManagementTagResource.Exists mock.client
     (service_tag_handle "sub1" "rg1" "svc1" "tag1") None).2
  = [CallGet "rg1" "svc1" "tag1"]
  ∧ (ApiManagementTagResource.Exists mock.client
       (parse.ID (parse.NewTagID "sub1" "rg1" "tag1")) None).2
    = [CallGet "rg1" "" "tag1"].
Proof. apply Exists_addressing; reflexivity. Defined.

Section ReadComposition.

Context {World : Type}.
Variable client : @TagClient World.
Variable ServiceName : parse.TagId → string.

(** X17: a read or a delete that fails leaves the resource data as it was,
    and its error is the parse error of the handle ([MalformedIdentifier])
    or a failure of its remote call ([RemoteCallFailed]). *)
Theorem Read_Delete_failures (st st' : State) (e : error) :
  resourceApiManagementTagRead client ServiceName st = (inl e, st')
  ∨ resourceApiManagementTagDelete client ServiceName st = (inl e, st') →
  d st' = d st
  ∧ (kind_of e = MalformedIdentifier ∨ kind_of e = RemoteCallFailed).
Proof.
  intros [Hread | Hdelete].
  - revert Hread. run_resource.
    destruct (parse.TagID (pluginsdk.Id (d st))) as [id|msg].
    + destruct (Get client _ _ _ (remote st)) as [[resp [err|]] w];
        cbn [d remote calls].
      * destruct (utils.ResponseWasNotFound _); [done|].
        intros [= <- <-]. split; [done | by right].
      * by destruct (apimanagement.Properties resp).
    + intros [= <- <-]. split; [done | by left].
  - revert Hdelete. run_resource.
    destruct (parse.TagID (pluginsdk.Id (d st))) as [id|msg].
    + destruct (Delete client _ _ _ _ (remote st)) as [[resp [err|]] w];
        cbn [d remote calls]; [|done].
      destruct (utils.ResponseWasNotFound resp); [done|]. cbn [negb].
      intros [= <- <-]. split; [done | by right].
    + intros [= <- <-]. split; [done | by left].
Qed.

(** X18: reading is idempotent on the resource data.  When the handle
    parses and the remote get gives the same successful answer twice, a
    second read stores what the first one stored. *)
Theorem Read_twice (st : State) (id : parse.TagId)
    (resp : apimanagement.TagContract) (w1 w2 : World) :
  parse.TagID (pluginsdk.Id (d st)) = Ok id →
  Get client (parse.ResourceGroup id) (ServiceName id) (parse.Name id)
    (remote st) = ((resp, None), w1) →
  Get client (parse.ResourceGroup id) (ServiceName id) (parse.Name id) w1
  = ((resp, None), w2) →
  let st1 := (resourceApiManagementTagRead client ServiceName st).2 in
  let st2 := (resourceApiManagementTagRead client ServiceName st1).2 in
  (resourceApiManagementTagRead client ServiceName st1).1 = inr ()
  ∧ d st2 = d st1.
Proof.
  intros Hparse Hget1 Hget2.
  run_resource. rewrite Hparse. run_resource. rewrite Hget1.
  cbn [d remote calls].
  destruct (apimanagement.Properties resp) as [props|] eqn:Hprops;
    cbn [snd d remote calls]; unfold pluginsdk.Set_;
    cbn [pluginsdk.Id pluginsdk.IsNewResource pluginsdk.attributes];
    rewrite Hparse; cbn [d remote calls]; rewrite Hget2;
    cbn [d remote calls]; rewrite Hprops;
    cbn [fst snd d pluginsdk.Id pluginsdk.IsNewResource pluginsdk.attributes];
    (split; [done|]); f_equal; apply map_eq; intros k;
    destruct (decide (k = "display_name")) as [->|];
      try (by simplify_map_eq);
    destruct (decide (k = "resource_group_name")) as [->|];
      try (by simplify_map_eq);
    destruct (decide (k = "api_management_name")) as [->|];
      try (by simplify_map_eq);
    destruct (decide (k = "tag_id")) as [->|];
      try (by simplify_map_eq);
    by rewrite !lookup_insert_ne by done.
Qed.

End ReadComposition.

Lemma Read_Delete_failures_witness :
  d {| d := d failing.existing_resource; remote := ();
       calls := [CallGet "rg1" "svc1" "tag1"] |}
  = d failing.existing_resource
  ∧ (kind_of (MakingReadRequest "tag1" "svc1" "rg1" "InternalServerError")
     = MalformedIdentifier
     ∨ kind_of (MakingReadRequest "tag1" "svc1" "rg1" "InternalServerError")
       = RemoteCallFailed).
Proof.
  apply (Read_Delete_failures failing.client mock.ServiceName
           failing.existing_resource).
  left. reflexivity.
Defined.

Lemma Read_twice_witness :
  let st := mock.existing_resource mock.tag_url (Some "Old") in
  let st1 := (resourceApiManagementTagRead mock.client mock.ServiceName st).2 in
  let st2 := (resourceApiManagementTagRead mock.client mock.ServiceName st1).2 in
  (resourceApiManagementTagRead mock.client mock.ServiceName st1).1 = inr ()
  ∧ d st2 = d st1.
Proof.
  exact (Read_twice mock.client mock.ServiceName
           (mock.existing_resource mock.tag_url (Some "Old"))
           (parse.NewTagID "sub1" "rg1" "tag1") (mock.contract "Old")
           (Some "Old") (Some "Old") eq_refl eq_refl eq_refl).
Defined.

(** * The invariant of parsed identities *)




